(** * Mapier-Hub maintenance scripts: a shallow embedding

    This development embeds the two scripts of the repository,
    [scripts/import_overture_us.py] (bulk load of Overture Maps places into
    the [places] table) and [scripts/clear_places.py] (bulk delete of that
    table), and proves the properties of their transform, sink and
    pagination logic.

    Conventions.
    - Python values are the inductive [pyval]; a Python [dict] with string
      keys that the scripts build themselves is a [gmap string pyval].
    - A Python exception is a value of [exn]; code that may raise returns
      [result A].
    - The external collaborators (the [json] module, the wall clock, the
      Supabase store, the DuckDB source, Python's [repr]) are variables of
      the sections, so every theorem holds for each behaviour of theirs. *)

From Stdlib Require Import ZArith Lia.
From stdpp Require Import base option list strings pretty gmap.

Set Warnings "-register-all".
Set Warnings "-clear-no-such-hyp".

Open Scope string_scope.
Open Scope list_scope.

(** ** Python values and exceptions *)

Module Py.

Inductive pyval : Type :=
| VNone
| VBool (b : bool)
| VInt (z : Z)
| VFloat (bits : Z)                      (* an IEEE double, by its 64 bits *)
| VStr (s : string)
| VList (l : list pyval)
| VDict (kvs : list (string * pyval)).   (* a nested dict, in key order *)

Inductive exn : Type :=
| KeyError (key : string)
| TypeError (msg : string)
| OtherError (msg : string).             (* json, store and database errors *)

Inductive result (A : Type) : Type :=
| Ok (a : A)
| Raise (e : exn).
Arguments Ok {A} a.
Arguments Raise {A} e.

Definition bind {A B} (r : result A) (k : A -> result B) : result B :=
  match r with
  | Ok a => k a
  | Raise e => Raise e
  end.

Definition rmap {A B} (f : A -> B) (r : result A) : result B :=
  bind r (fun a => Ok (f a)).

Definition is_ok {A} (r : result A) : bool :=
  match r with Ok _ => true | Raise _ => false end.

(** Python's truth test, [bool(v)]. *)
Definition truthy (v : pyval) : bool :=
  match v with
  | VNone => false
  | VBool b => b
  | VInt z => negb (z =? 0)%Z
  | VFloat bits => negb ((bits =? 0)%Z || (bits =? 2 ^ 63)%Z)
  | VStr s => negb (String.eqb s "")
  | VList l => match l with [] => false | _ => true end
  | VDict kvs => match kvs with [] => false | _ => true end
  end.

(** A [str] is held as the bytes of its UTF-8 encoding. Iterating over it
    yields its characters, one per code point: a byte [10xxxxxx] continues
    the character of the byte before it. *)
Definition is_continuation (c : Ascii.ascii) : bool :=
  let n := Ascii.nat_of_ascii c in
  ((128 <=? n) && (n <? 192))%nat.

Definition starts_with_continuation (s : string) : bool :=
  match s with
  | EmptyString => false
  | String c _ => is_continuation c
  end.

Fixpoint code_points (s : string) : list string :=
  match s with
  | EmptyString => []
  | String c s' =>
      match code_points s' with
      | [] => [String c EmptyString]
      | x :: xs =>
          if starts_with_continuation x then String c x :: xs
          else String c EmptyString :: x :: xs
      end
  end.

Definition chars (s : string) : list pyval := map VStr (code_points s).

Example code_points_accent :
  code_points "aé!" = ["a"; "é"; "!"] /\ length (chars "é") = 1.
Proof. split; reflexivity. Qed.

(** [list(v)]: the elements of an iterable, in iteration order; a
    [TypeError] for a value that is not iterable. *)
Definition py_list (v : pyval) : result pyval :=
  match v with
  | VList l => Ok (VList l)
  | VStr s => Ok (VList (chars s))
  | VDict kvs => Ok (VList (map (fun kv => VStr (fst kv)) kvs))
  | VNone => Raise (TypeError "'NoneType' object is not iterable")
  | VBool _ => Raise (TypeError "'bool' object is not iterable")
  | VInt _ => Raise (TypeError "'int' object is not iterable")
  | VFloat _ => Raise (TypeError "'float' object is not iterable")
  end.

(** [dict(zip(keys, vals))]: [zip] stops at the shorter sequence and a
    repeated key keeps its last value. *)
Definition dict_zip (keys : list string) (vals : list pyval)
  : gmap string pyval :=
  foldl (fun m kv => <[fst kv := snd kv]> m) ∅ (zip keys vals).

(** [d[k]]: a [KeyError] when the key is absent. *)
Definition getitem (d : gmap string pyval) (k : string) : result pyval :=
  match d !! k with
  | Some v => Ok v
  | None => Raise (KeyError k)
  end.

(** [d.get(k, default)]. *)
Definition get_default (d : gmap string pyval) (k : string) (dflt : pyval)
  : pyval :=
  default dflt (d !! k).

(** [str(e)] of an exception: a [KeyError] shows the [repr] of its key. *)
Definition exn_str (e : exn) : string :=
  match e with
  | KeyError k => "'" +:+ k +:+ "'"
  | TypeError msg => msg
  | OtherError msg => msg
  end.

(** [format(z, ',')]: decimal digits in groups of three. *)
Fixpoint group3 (fuel : nat) (n : N) : string :=
  match fuel with
  | O => pretty n
  | S fuel' =>
      if (n <? 1000)%N then pretty n
      else
        let r := (n mod 1000)%N in
        let pad := if (r <? 10)%N then "00"
                   else if (r <? 100)%N then "0" else "" in
        group3 fuel' (n / 1000)%N +:+ "," +:+ pad +:+ pretty r
  end.

Definition format_thousands (z : Z) : string :=
  let n := Z.abs_N z in
  let body := group3 (N.to_nat (N.log2 n)) n in
  if (z <? 0)%Z then "-" +:+ body else body.

(** The separator is part of what [main] prints. *)
Example format_thousands_50000 :
  format_thousands 50000 = "50,000" /\ format_thousands (-1234567) = "-1,234,567".
Proof. split; reflexivity. Qed.

End Py.

(** ** scripts/import_overture_us.py *)

Module import_overture_us.
Import Py.

Abbreviation write_record := (gmap string pyval).
Abbreviation source_row := (list pyval).

Definition OVERTURE_VERSION : string := "2025-11-19.0".
Definition OVERTURE_PATH : string :=
  "s3://overturemaps-us-west-2/release/" +:+ OVERTURE_VERSION
  +:+ "/theme=places/*/*".
Definition BATCH_SIZE : nat := 500.

(** The columns [main] passes to [transform_record], in SELECT order. *)
Definition columns : list string :=
  [ "id"; "name"; "confidence"; "primary_category"; "alternate_categories";
    "brand"; "operating_status"; "websites"; "socials"; "phones"; "emails";
    "street"; "city"; "state"; "postcode"; "country"; "lon"; "lat"; "raw" ].

Definition array_fields : list string :=
  [ "alternate_categories"; "websites"; "socials"; "phones"; "emails" ].

(** [if opt:] on an [Optional[str]] and on an [Optional[int]]. *)
Definition str_given (o : option string) : option string :=
  match o with
  | Some s => if String.eqb s "" then None else Some s
  | None => None
  end.

Definition int_given (o : option Z) : option Z :=
  match o with
  | Some n => if (n =? 0)%Z then None else Some n
  | None => None
  end.

(** The clauses [build_query] and [count_records] both assemble. *)
Definition where_clauses (category state : option string) : list string :=
  [ "addresses[1].country = 'US'";
    "ST_X(geometry) BETWEEN -180 AND -65";
    "ST_Y(geometry) BETWEEN 18 AND 72" ]
  ++ match str_given category with
     | Some c => [ "categories.primary = '" +:+ c +:+ "'" ]
     | None => []
     end
  ++ match str_given state with
     | Some st => [ "addresses[1].region = '" +:+ st +:+ "'" ]
     | None => []
     end.

(** The SELECT statement of [build_query]: its column list and source
    path are fixed, so the statement is given by its WHERE clauses (joined
    by AND) and its LIMIT clause, present only when [limit] is truthy. *)
Record query : Type := { q_where : list string; q_limit : option Z }.

Definition build_query (limit : option Z) (category state : option string)
  : query :=
  {| q_where := where_clauses category state; q_limit := int_given limit |}.

Section Importer.

(** [json.loads] and [json.dumps(_, default=str)]. *)
Variable json_loads : string -> result pyval.
Variable json_dumps : pyval -> result string.
(** [repr] of a value that is not a string. *)
Variable py_repr : pyval -> string.
(** [datetime.utcnow().isoformat()] at the k-th reading of the clock. *)
Variable utcnow_isoformat : nat -> string.

Definition py_str (v : pyval) : string :=
  match v with
  | VStr s => s
  | _ => py_repr v
  end.

(** One turn of the loop over [array_fields]. *)
Definition normalize_array (rec : result write_record) (arr_field : string)
  : result write_record :=
  bind rec (fun record =>
  bind (getitem record arr_field) (fun v =>
  if truthy v
  then bind (py_list v) (fun l => Ok (<[arr_field := l]> record))
  else Ok (<[arr_field := VNone]> record))).

Definition decode_raw (record : write_record) : result write_record :=
  bind (getitem record "raw") (fun raw =>
  if truthy raw then
    match raw with
    | VStr s =>
        bind (json_loads s) (fun j => Ok (<["raw" := j]> record))
    | VDict _ =>
        bind (json_dumps raw) (fun s =>
        bind (json_loads s) (fun j => Ok (<["raw" := j]> record)))
    | _ => Ok record
    end
  else Ok record).

(** [transform_record(row, columns)]; [now1] and [now2] are the two
    readings of the clock, taken after everything that can raise. *)
Definition transform_record (now1 now2 : string)
    (row : source_row) (columns : list string) : result write_record :=
  let record := dict_zip columns row in
  bind (foldl normalize_array (Ok record) array_fields) (fun record =>
  bind (decode_raw record) (fun record =>
  let record := <["overture_version" := VStr OVERTURE_VERSION]> record in
  let record := <["overture_updated_at" := VStr now1]> record in
  let record := <["updated_at" := VStr now2]> record in
  Ok record)).

(** *** The run state of [main] *)

(** What is handed to one [upsert(...)] call: a list of records or one. *)
Inductive payload : Type :=
| Many (batch : list write_record)
| One (record : write_record).

(** The calls [main] makes to its collaborators, in program order. *)
Inductive event : Type :=
| EvPrint (text : string)
| EvInput (prompt : string)
| EvSql (statement : string)                 (* setup_duckdb *)
| EvCount (where_ : list string)             (* the COUNT query, fetchone *)
| EvExecute (q : query)                      (* con.execute(query) *)
| EvFetchMany (size : nat) (rows : list source_row)
| EvUpsert (p : payload) (on_conflict : string).

(** The Supabase table: its state and the outcome of one
    [table('places').upsert(p, on_conflict=k).execute()]: the new state
    and the exception raised, if any. *)
Context {Store : Type}.
Variable upsert : Store -> payload -> string -> Store * option exn.

(** The DuckDB source: the result of the COUNT query and the rows of the
    SELECT query for given WHERE clauses. The two are separate queries
    against a remote snapshot and need not agree. *)
Variable db_count : list string -> Z.
Variable db_select : list string -> list source_row.

Record run : Type := {
  imported : nat;
  errors : nat;
  error_samples : list string;
  pbar : nat;                 (* rows reported to the progress bar *)
  ticks : nat;                (* readings of the clock so far *)
  supabase : Store;
  trace : list event
}.

Definition log (ev : event) (s : run) : run :=
  {| imported := imported s; errors := errors s;
     error_samples := error_samples s; pbar := pbar s; ticks := ticks s;
     supabase := supabase s; trace := trace s ++ [ev] |}.

Definition print (text : string) (s : run) : run := log (EvPrint text) s.

(** [errors += 1] and the guarded [error_samples.append(msg)]. *)
Definition count_error (msg : string) (s : run) : run :=
  {| imported := imported s; errors := S (errors s);
     error_samples :=
       if (length (error_samples s) <? 5)%nat then error_samples s ++ [msg]
       else error_samples s;
     pbar := pbar s; ticks := ticks s;
     supabase := supabase s; trace := trace s |}.

Definition add_imported (n : nat) (s : run) : run :=
  {| imported := imported s + n; errors := errors s;
     error_samples := error_samples s; pbar := pbar s; ticks := ticks s;
     supabase := supabase s; trace := trace s |}.

Definition pbar_update (n : nat) (s : run) : run :=
  {| imported := imported s; errors := errors s;
     error_samples := error_samples s; pbar := pbar s + n; ticks := ticks s;
     supabase := supabase s; trace := trace s |}.

Definition clock_read2 (s : run) : run :=
  {| imported := imported s; errors := errors s;
     error_samples := error_samples s; pbar := pbar s; ticks := S (S (ticks s));
     supabase := supabase s; trace := trace s |}.

(** One [upsert(p, on_conflict='id').execute()] call. *)
Definition do_upsert (p : payload) (s : run) : run * option exn :=
  let '(store', outcome) := upsert (supabase s) p "id" in
  (log (EvUpsert p "id")
     {| imported := imported s; errors := errors s;
        error_samples := error_samples s; pbar := pbar s; ticks := ticks s;
        supabase := store'; trace := trace s |},
   outcome).

(** [for row in rows: try: batch.append(transform_record(row, columns))
    except Exception as e: ...]. *)
Fixpoint transform_rows (rows : list source_row) (batch : list write_record)
    (s : run) : list write_record * run :=
  match rows with
  | [] => (batch, s)
  | row :: rows' =>
      match transform_record (utcnow_isoformat (ticks s))
              (utcnow_isoformat (S (ticks s))) row columns with
      | Ok record => transform_rows rows' (batch ++ [record]) (clock_read2 s)
      | Raise e =>
          transform_rows rows' batch
            (count_error ("Transform error: " +:+ exn_str e) s)
      end
  end.

(** The fallback: [for record in batch: try: upsert(record) ...]. *)
Fixpoint upsert_singles (batch : list write_record) (s : run) : run :=
  match batch with
  | [] => s
  | record :: batch' =>
      match do_upsert (One record) s with
      | (s1, None) => upsert_singles batch' (add_imported 1 s1)
      | (s1, Some e2) =>
          upsert_singles batch'
            (count_error
               ("Insert error for "
                +:+ py_str (get_default record "id" (VStr "?"))
                +:+ ": " +:+ exn_str e2) s1)
      end
  end.

(** [if batch: try: upsert(batch) ... except: <fallback>]. *)
Definition upsert_batch (batch : list write_record) (s : run) : run :=
  match batch with
  | [] => s
  | _ :: _ =>
      match do_upsert (Many batch) s with
      | (s1, None) => add_imported (length batch) s1
      | (s1, Some _) => upsert_singles batch s1
      end
  end.

(** The body of the [while True] loop after a non-empty fetch. *)
Definition process_page (rows : list source_row) (s : run) : run :=
  let '(batch, s1) := transform_rows rows [] s in
  pbar_update (length rows) (upsert_batch batch s1).

(** [result.fetchmany(n)] on a cursor holding the rows not yet fetched. *)
Definition fetchmany (n : nat) (cursor : list source_row)
  : list source_row * list source_row :=
  (take n cursor, drop n cursor).

(** The [while True] loop; [None] when the fuel runs out first. *)
Fixpoint import_loop (fuel : nat) (cursor : list source_row) (s : run)
  : option run :=
  match fuel with
  | O => None
  | S fuel' =>
      let '(rows, cursor') := fetchmany BATCH_SIZE cursor in
      let s1 := log (EvFetchMany BATCH_SIZE rows) s in
      match rows with
      | [] => Some s1
      | _ :: _ => import_loop fuel' cursor' (process_page rows s1)
      end
  end.

(** *** [main] *)

(** The parsed command line. *)
Record Args : Type := {
  limit : option Z;
  category : option string;
  state : option string;
  dry_run : bool;
  yes : bool
}.

(** How a run of the script ends. *)
Inductive exit : Type :=
| Returned
| SysExit (code : Z)
| Uncaught (e : exn).

Definition nl : string := String (Ascii.ascii_of_nat 10) EmptyString.

Definition rule60 : string :=
  "============================================================".

(** [confirm.lower()], on ASCII letters. *)
Definition lower_ascii (c : Ascii.ascii) : Ascii.ascii :=
  let n := Ascii.nat_of_ascii c in
  if ((65 <=? n) && (n <=? 90))%nat then Ascii.ascii_of_nat (n + 32) else c.

Fixpoint lower (s : string) : string :=
  match s with
  | EmptyString => EmptyString
  | String c s' => String (lower_ascii c) (lower s')
  end.

(** [get_supabase_client]: [None] stands for the [sys.exit(1)] branch,
    taken when a variable is unset or empty. *)
Definition get_supabase_client (environ : gmap string string)
  : option (string * string) :=
  match environ !! "SUPABASE_URL", environ !! "SUPABASE_SERVICE_KEY" with
  | Some url, Some key =>
      if String.eqb url "" || String.eqb key "" then None else Some (url, key)
  | _, _ => None
  end.

Definition setup_duckdb (s : run) : run :=
  log (EvSql "SET s3_region='us-west-2';")
    (log (EvSql "LOAD spatial; LOAD httpfs;")
       (log (EvSql "INSTALL spatial; INSTALL httpfs;") s)).

Definition count_records (category state : option string) (s : run)
  : Z * run :=
  let w := where_clauses category state in
  (db_count w, log (EvCount w) s).

(** [con.execute(query)]: the rows the WHERE clauses select, cut to the
    first [n] by a [LIMIT n] clause. DuckDB reads the count as a signed
    64-bit integer: a count of [2^63] or more raises a conversion error,
    and a negative count is taken to be rejected too; either exception
    leaves [main] uncaught. *)
Definition execute (q : query) : result (list source_row) :=
  match q_limit q with
  | None => Ok (db_select (q_where q))
  | Some n =>
      if (n <? 0)%Z then Raise (OtherError "LIMIT must not be negative")
      else if (2 ^ 63 <=? n)%Z then
        Raise (OtherError "Conversion Error: LIMIT is out of range for INT64")
      else Ok (take (Z.to_nat n) (db_select (q_where q)))
  end.

(** [if args.limit: total = min(total, args.limit)]. *)
Definition cap_total (limit : option Z) (total : Z) : Z :=
  match int_given limit with
  | Some n => Z.min total n
  | None => total
  end.

Definition init_run (store0 : Store) : run :=
  {| imported := 0; errors := 0; error_samples := []; pbar := 0; ticks := 0;
     supabase := store0; trace := [] |}.

Definition geometry_note : string :=
  nl +:+ "    UPDATE places" +:+ nl
  +:+ "    SET geom = ST_SetSRID(ST_MakePoint(lon, lat), 4326)" +:+ nl
  +:+ "    WHERE geom IS NULL AND lon IS NOT NULL AND lat IS NOT NULL;" +:+ nl
  +:+ "    ".

(** The summary printed after the loop. *)
Definition report (s : run) : run :=
  let s := print (nl +:+ rule60) s in
  let s := print "Import complete!" s in
  let s := print ("  Imported/Updated: "
                  +:+ format_thousands (Z.of_nat (imported s))) s in
  let s := print ("  Errors: " +:+ format_thousands (Z.of_nat (errors s))) s in
  let s := match error_samples s with
           | [] => s
           | _ :: _ =>
               foldl (fun s err => print ("  - " +:+ err) s)
                 (print (nl +:+ "Sample errors:") s) (error_samples s)
           end in
  let s := print (nl +:+ "Note: Run this SQL to update geometry column:") s in
  let s := print geometry_note s in
  let s := print (nl +:+ rule60) s in
  print "Done!" s.

(** From "Build query" to the end of [main]. *)
Definition import_all (fuel : nat) (args : Args) (s : run)
  : option (exit * run) :=
  let query := build_query (limit args) (category args) (state args) in
  let s := print (nl +:+ "Importing in batches of " +:+ pretty BATCH_SIZE
                  +:+ "...") s in
  let s := log (EvExecute query) s in
  match execute query with
  | Raise e => Some (Uncaught e, s)
  | Ok cursor =>
      match import_loop fuel cursor s with
      | None => None
      | Some s => Some (Returned, report s)
      end
  end.

(** [main()]: [environ] is [os.environ], [reply] what the user types at the
    confirmation prompt, [store0] the table before the run. *)
Definition main (fuel : nat) (args : Args) (environ : gmap string string)
    (reply : string) (store0 : Store) : option (exit * run) :=
  let s := init_run store0 in
  let s := print rule60 s in
  let s := print "Overture Maps US POI Importer" s in
  let s := print ("Version: " +:+ OVERTURE_VERSION) s in
  let s := print rule60 s in
  let s := print (nl +:+ "Setting up connections...") s in
  match get_supabase_client environ with
  | None =>
      Some (SysExit 1,
            print ("Error: SUPABASE_URL and SUPABASE_SERVICE_KEY "
                   +:+ "environment variables required") s)
  | Some _ =>
      let s := setup_duckdb s in
      let s := print ("Counting records to import "
                      +:+ "(this may take a few minutes)...") s in
      let '(total, s) := count_records (category args) (state args) s in
      let total := cap_total (limit args) total in
      let s := print (nl +:+ "Records to import: "
                      +:+ format_thousands total) s in
      let s := match str_given (category args) with
               | Some c => print ("  Filtered by category: " +:+ c) s
               | None => s
               end in
      let s := match str_given (state args) with
               | Some st => print ("  Filtered by state: " +:+ st) s
               | None => s
               end in
      if dry_run args then
        Some (Returned, print (nl +:+ "[Dry run] - exiting without import") s)
      else if (10000 <? total)%Z && negb (yes args) then
        let s := log (EvInput (nl +:+ "This will upsert "
                               +:+ format_thousands total
                               +:+ " records. Continue? [y/N] ")) s in
        if String.eqb (lower reply) "y" then import_all fuel args s
        else Some (Returned, print "Aborted." s)
      else import_all fuel args s
  end.

(** *** The transformer *)

(** What one array field becomes: [list(v)] for a truthy value, [None]
    otherwise. *)
Definition array_value (v : pyval) : result pyval :=
  if truthy v then py_list v else Ok VNone.

Lemma normalize_array_unfold (d : gmap string pyval) (f : string) :
  normalize_array (Ok d) f =
  bind (getitem d f) (fun v =>
  bind (array_value v) (fun l => Ok (<[f := l]> d))).
Proof.
  unfold normalize_array, array_value; simpl.
  destruct (getitem d f) as [v|e]; simpl; [|done].
  by destruct (truthy v).
Qed.

Lemma normalize_array_raise (e : exn) (f : string) :
  normalize_array (Raise e) f = Raise e.
Proof. done. Qed.

Lemma foldl_normalize_raise (e : exn) (fs : list string) :
  foldl normalize_array (Raise e) fs = Raise e.
Proof. induction fs as [|f fs IH]; simpl; [done|apply IH]. Qed.

(** A key that is not an array field keeps its value through the loop. *)
Lemma foldl_normalize_other (fs : list string) (d d' : gmap string pyval)
    (k : string) :
  k ∉ fs ->
  foldl normalize_array (Ok d) fs = Ok d' ->
  d' !! k = d !! k.
Proof.
  revert d. induction fs as [|f fs IH]; intros d Hk H; cbn [foldl] in H.
  - by inversion H.
  - apply not_elem_of_cons in Hk as [Hkf Hk].
    rewrite normalize_array_unfold in H.
    destruct (getitem d f) as [v|e]; simpl in H;
      [|by rewrite foldl_normalize_raise in H].
    destruct (array_value v) as [l|e]; simpl in H;
      [|by rewrite foldl_normalize_raise in H].
    rewrite (IH _ Hk H). by rewrite lookup_insert_ne.
Qed.

(** An array field ends as the [array_value] of what the row held. *)
Lemma foldl_normalize_field (fs : list string) (d d' : gmap string pyval)
    (f : string) :
  NoDup fs -> f ∈ fs ->
  foldl normalize_array (Ok d) fs = Ok d' ->
  exists v l, d !! f = Some v /\ array_value v = Ok l /\ d' !! f = Some l.
Proof.
  revert d. induction fs as [|g fs IH]; intros d Hnd Hf H; cbn [foldl] in H.
  - by apply elem_of_nil in Hf.
  - apply NoDup_cons in Hnd as [Hg Hnd].
    rewrite normalize_array_unfold in H.
    destruct (getitem d g) as [v|e] eqn:Hget; simpl in H;
      [|by rewrite foldl_normalize_raise in H].
    destruct (array_value v) as [l|e] eqn:Hav; simpl in H;
      [|by rewrite foldl_normalize_raise in H].
    unfold getitem in Hget.
    destruct (d !! g) as [v'|] eqn:Hdg; [|done]. inversion Hget; subst v'.
    apply elem_of_cons in Hf as [->|Hf].
    + exists v, l. split; [done|]. split; [done|].
      rewrite (foldl_normalize_other _ _ _ _ Hg H).
      apply lookup_insert_eq.
    + destruct (IH _ Hnd Hf H) as (v' & l' & Hv' & Hl' & Hd').
      assert (f <> g) by (intros ->; done).
      rewrite lookup_insert_ne in Hv' by done.
      by exists v', l'.
Qed.

Lemma decode_raw_other (d d' : gmap string pyval) (k : string) :
  k <> "raw" -> decode_raw d = Ok d' -> d' !! k = d !! k.
Proof.
  intros Hk H. unfold decode_raw in H.
  destruct (getitem d "raw") as [raw|e]; simpl in H; [|done].
  destruct (truthy raw); [|by inversion H].
  destruct raw; try (by inversion H).
  - destruct (json_loads s) as [j|e]; simpl in H; [|done].
    inversion H. by rewrite lookup_insert_ne.
  - destruct (json_dumps (VDict kvs)) as [s|e]; simpl in H; [|done].
    destruct (json_loads s) as [j|e]; simpl in H; [|done].
    inversion H. by rewrite lookup_insert_ne.
Qed.

(** The part of [transform_record] that can raise. *)
Definition normalize (d : gmap string pyval) : result (gmap string pyval) :=
  bind (foldl normalize_array (Ok d) array_fields) decode_raw.

Definition stamp (now1 now2 : string) (d : gmap string pyval)
  : gmap string pyval :=
  <["updated_at" := VStr now2]>
    (<["overture_updated_at" := VStr now1]>
       (<["overture_version" := VStr OVERTURE_VERSION]> d)).

Lemma transform_record_unfold (now1 now2 : string) (row : source_row)
    (cols : list string) :
  transform_record now1 now2 row cols
  = rmap (stamp now1 now2) (normalize (dict_zip cols row)).
Proof.
  unfold transform_record, normalize, rmap, stamp.
  destruct (foldl normalize_array _ _) as [d|e]; simpl; [|done].
  by destruct (decode_raw d).
Qed.

Lemma NoDup_array_fields : NoDup array_fields.
Proof. unfold array_fields. apply NoDup_ListNoDup. repeat constructor; simpl; intuition congruence. Qed.

(** Replacing a value by [None] before the transform is replacing it
    by [None] after it: a [None] never makes a step raise. *)
Lemma normalize_array_none (d d' : gmap string pyval) (f c : string) :
  normalize_array (Ok d) f = Ok d' ->
  normalize_array (Ok (<[c := VNone]> d)) f = Ok (<[c := VNone]> d').
Proof.
  rewrite !normalize_array_unfold. unfold getitem. intros H.
  destruct (d !! f) as [v|] eqn:Hd; simpl in H; [|done].
  destruct (array_value v) as [l|e] eqn:Hl; simpl in H; [|done].
  inversion H; subst d'; clear H.
  destruct (decide (c = f)) as [->|Hne].
  - rewrite lookup_insert_eq. simpl. by rewrite !insert_insert_eq.
  - rewrite lookup_insert_ne, Hd by done. simpl. rewrite Hl. simpl.
    by rewrite insert_insert_ne.
Qed.

Lemma foldl_normalize_none (fs : list string) (d d' : gmap string pyval)
    (c : string) :
  foldl normalize_array (Ok d) fs = Ok d' ->
  foldl normalize_array (Ok (<[c := VNone]> d)) fs = Ok (<[c := VNone]> d').
Proof.
  revert d. induction fs as [|f fs IH]; intros d H; cbn [foldl] in *.
  - by inversion H.
  - destruct (normalize_array (Ok d) f) as [d1|e] eqn:H1;
      [|by rewrite foldl_normalize_raise in H].
    rewrite (normalize_array_none _ _ _ c H1). by apply IH.
Qed.

Lemma decode_raw_none (d d' : gmap string pyval) (c : string) :
  decode_raw d = Ok d' ->
  decode_raw (<[c := VNone]> d) = Ok (<[c := VNone]> d').
Proof.
  unfold decode_raw, getitem. intros H.
  destruct (d !! "raw") as [raw|] eqn:Hd; simpl in H; [|done].
  destruct (decide (c = "raw")) as [->|Hne].
  - rewrite lookup_insert_eq. simpl.
    destruct (truthy raw); [|by inversion H].
    destruct raw; try (by inversion H).
    + destruct (json_loads s) as [j|e]; simpl in H; [|done].
      inversion H. by rewrite insert_insert_eq.
    + destruct (json_dumps (VDict kvs)) as [s|e]; simpl in H; [|done].
      destruct (json_loads s) as [j|e]; simpl in H; [|done].
      inversion H. by rewrite insert_insert_eq.
  - rewrite lookup_insert_ne, Hd by done. simpl.
    destruct (truthy raw); [|by inversion H].
    destruct raw; try (by inversion H).
    + destruct (json_loads s) as [j|e]; simpl in *; [|done].
      inversion H. by rewrite insert_insert_ne.
    + destruct (json_dumps (VDict kvs)) as [s|e]; simpl in *; [|done].
      destruct (json_loads s) as [j|e]; simpl in *; [|done].
      inversion H. by rewrite insert_insert_ne.
Qed.

Lemma normalize_none (d d' : gmap string pyval) (c : string) :
  normalize d = Ok d' ->
  normalize (<[c := VNone]> d) = Ok (<[c := VNone]> d').
Proof.
  unfold normalize. intros H.
  destruct (foldl normalize_array (Ok d) array_fields) as [d1|e] eqn:H1;
    simpl in H; [|done].
  rewrite (foldl_normalize_none _ _ _ c H1). simpl.
  by apply decode_raw_none.
Qed.

Definition metadata_fields : list string :=
  [ "overture_version"; "overture_updated_at"; "updated_at" ].

Lemma stamp_insert (now1 now2 : string) (d : gmap string pyval)
    (c : string) (v : pyval) :
  c ∉ metadata_fields ->
  stamp now1 now2 (<[c := v]> d) = <[c := v]> (stamp now1 now2 d).
Proof.
  intros Hc. unfold metadata_fields in Hc.
  apply not_elem_of_cons in Hc as [H1 Hc].
  apply not_elem_of_cons in Hc as [H2 Hc].
  apply not_elem_of_cons in Hc as [H3 _].
  unfold stamp.
  rewrite (insert_insert_ne _ "overture_version" c) by done.
  rewrite (insert_insert_ne _ "overture_updated_at" c) by done.
  by rewrite (insert_insert_ne _ "updated_at" c) by done.
Qed.

Lemma stamp_lookup_other (now1 now2 : string) (d : gmap string pyval)
    (k : string) :
  k ∉ metadata_fields -> stamp now1 now2 d !! k = d !! k.
Proof.
  intros Hc. unfold metadata_fields in Hc.
  apply not_elem_of_cons in Hc as [H1 Hc].
  apply not_elem_of_cons in Hc as [H2 Hc].
  apply not_elem_of_cons in Hc as [H3 _].
  unfold stamp. by rewrite !lookup_insert_ne.
Qed.

(** [dict(zip(...))] and a positional update of the row. *)
Definition put (m : gmap string pyval) (kv : string * pyval)
  : gmap string pyval :=
  <[fst kv := snd kv]> m.

Lemma foldl_put_insert (kvs : list (string * pyval))
    (m : gmap string pyval) (c : string) (v : pyval) :
  c ∉ kvs.*1 ->
  foldl put (<[c := v]> m) kvs = <[c := v]> (foldl put m kvs).
Proof.
  revert m. induction kvs as [|[k w] kvs IH]; intros m Hc; simpl; [done|].
  simpl in Hc. apply not_elem_of_cons in Hc as [Hck Hc].
  unfold put at 2 4; simpl.
  rewrite (insert_insert_ne _ k c) by done. by apply IH.
Qed.

Lemma fst_zip_subset (cols : list string) (row : source_row) (c : string) :
  c ∈ (zip cols row).*1 -> c ∈ cols.
Proof.
  revert row. induction cols as [|k cols IH]; intros [|w row] H; simpl in H;
    try (by apply elem_of_nil in H).
  apply elem_of_cons in H as [->|H]; [left|right; eauto].
Qed.

Lemma dict_zip_insert (cols : list string) (row : source_row) (i : nat)
    (c : string) (v : pyval) :
  NoDup cols -> cols !! i = Some c -> i < length row ->
  dict_zip cols (<[i := v]> row) = <[c := v]> (dict_zip cols row).
Proof.
  unfold dict_zip. change (fun m kv => <[kv.1 := kv.2]> m) with put.
  generalize (∅ : gmap string pyval).
  revert row i. induction cols as [|k cols IH]; intros row i m Hnd Hi Hlen.
  - done.
  - apply NoDup_cons in Hnd as [Hk Hnd].
    destruct row as [|w row]; [simpl in Hlen; lia|].
    destruct i as [|i]; simpl in *.
    + inversion Hi; subst k. unfold put at 2 4; simpl.
      rewrite <- foldl_put_insert
        by (intros Hin; apply Hk; eapply fst_zip_subset, Hin).
      by rewrite insert_insert_eq.
    + apply IH; [done|done|lia].
Qed.

Lemma NoDup_columns : NoDup columns.
Proof.
  unfold columns. apply NoDup_ListNoDup.
  repeat (constructor; [simpl; intuition congruence|]). constructor.
Qed.

Lemma columns_not_metadata (c : string) :
  c ∈ columns -> c ∉ metadata_fields.
Proof.
  unfold columns, metadata_fields. intros H.
  repeat (apply elem_of_cons in H as [->|H];
          [intros Hm; repeat (apply elem_of_cons in Hm as [Hm|Hm];
                              [discriminate Hm|]);
           by apply elem_of_nil in Hm|]).
  by apply elem_of_nil in H.
Qed.

Lemma array_fields_not_metadata (f : string) :
  f ∈ array_fields -> (f ∉ metadata_fields) /\ f <> "raw" /\ f <> "id".
Proof.
  unfold array_fields, metadata_fields. intros H.
  repeat (apply elem_of_cons in H as [->|H];
          [split; [|done];
           intros Hm; repeat (apply elem_of_cons in Hm as [Hm|Hm];
                              [discriminate Hm|]);
           by apply elem_of_nil in Hm|]).
  by apply elem_of_nil in H.
Qed.

(** A key the transform does not write keeps the value of the row. *)
Lemma transform_record_other (now1 now2 : string) (row : source_row)
    (cols : list string) (rec : gmap string pyval) (k : string) :
  k ∉ array_fields -> k <> "raw" -> k ∉ metadata_fields ->
  transform_record now1 now2 row cols = Ok rec ->
  rec !! k = dict_zip cols row !! k.
Proof.
  intros Ha Hr Hm. rewrite transform_record_unfold. unfold rmap, normalize.
  destruct (foldl normalize_array _ array_fields) as [d1|e] eqn:H1;
    simpl; [|done].
  destruct (decode_raw d1) as [d2|e] eqn:H2; simpl; [|done].
  intros H; inversion H; subst rec.
  rewrite stamp_lookup_other by done.
  rewrite (decode_raw_other _ _ _ Hr H2).
  by apply foldl_normalize_other with array_fields.
Qed.

(** The identifier is copied, whatever it is. *)
Lemma transform_record_id (now1 now2 : string) (row : source_row)
    (cols : list string) (rec : gmap string pyval) :
  transform_record now1 now2 row cols = Ok rec ->
  rec !! "id" = dict_zip cols row !! "id".
Proof.
  apply transform_record_other.
  - unfold array_fields. intros H.
    repeat (apply elem_of_cons in H as [H|H]; [discriminate H|]).
    by apply elem_of_nil in H.
  - done.
  - unfold metadata_fields. intros H.
    repeat (apply elem_of_cons in H as [H|H]; [discriminate H|]).
    by apply elem_of_nil in H.
Qed.

(** Whether the transform raises, and what, does not depend on the clock. *)
Lemma transform_record_clock (now1 now2 now1' now2' : string)
    (row : source_row) (cols : list string) :
  is_ok (transform_record now1 now2 row cols)
  = is_ok (transform_record now1' now2' row cols).
Proof.
  rewrite !transform_record_unfold. unfold rmap.
  by destruct (normalize (dict_zip cols row)).
Qed.

(** A row that does not reach the last column raises. *)
Lemma dict_zip_short_row (row : source_row) :
  length row < length columns -> dict_zip columns row !! "raw" = None.
Proof.
  intros Hlen.
  do 19 (destruct row as [|? row]; [reflexivity|]).
  simpl in Hlen. lia.
Qed.

Lemma transform_record_short_row (now1 now2 : string) (row : source_row) :
  length row < length columns ->
  is_ok (transform_record now1 now2 row columns) = false.
Proof.
  intros Hlen. rewrite transform_record_unfold. unfold rmap, normalize.
  destruct (foldl normalize_array _ array_fields) as [d1|e] eqn:H1;
    simpl; [|done].
  assert ("raw" ∉ array_fields) as Hnot.
  { unfold array_fields. intros H.
    repeat (apply elem_of_cons in H as [H|H]; [discriminate H|]).
    by apply elem_of_nil in H. }
  assert (d1 !! "raw" = None) as Hraw.
  { rewrite (foldl_normalize_other _ _ _ "raw" Hnot H1).
    by apply dict_zip_short_row. }
  unfold decode_raw, getitem. by rewrite Hraw.
Qed.

(** C1 (amended): [transform_record] has no required field. For a row
    that supplies the column, a [None] in any column of [columns], [id]
    included, raises nothing: when a row is transformed, so is the same
    row with that column replaced by [None], and the result is the same
    record with [None] in that column. *)
Theorem C1_none_column_never_fails (now1 now2 : string) (row : source_row)
    (i : nat) (c : string) (rec : gmap string pyval) :
  columns !! i = Some c ->
  i < length row ->
  transform_record now1 now2 row columns = Ok rec ->
  transform_record now1 now2 (<[i := VNone]> row) columns
  = Ok (<[c := VNone]> rec).
Proof.
  intros Hc Hi. rewrite !transform_record_unfold.
  rewrite (dict_zip_insert _ _ _ _ _ NoDup_columns Hc Hi).
  unfold rmap.
  destruct (normalize (dict_zip columns row)) as [d|e] eqn:Hn; simpl; [|done].
  intros H; inversion H; subst rec.
  rewrite (normalize_none _ _ c Hn). simpl.
  rewrite stamp_insert; [done|].
  apply columns_not_metadata. by eapply list_elem_of_lookup_2.
Qed.

(** C2 (amended): each array field of the WriteRecord is [None] both when
    the row holds [None] and when it holds the empty sequence, so the two
    are not told apart; a non-empty sequence is copied in source order. *)
Theorem C2_array_field_normalized (now1 now2 : string) (row : source_row)
    (cols : list string) (f : string) (v : pyval)
    (rec : gmap string pyval) :
  f ∈ array_fields ->
  dict_zip cols row !! f = Some v ->
  transform_record now1 now2 row cols = Ok rec ->
  (v = VNone \/ v = VList [] -> rec !! f = Some VNone)
  /\ (forall l, v = VList l -> l <> [] -> rec !! f = Some (VList l)).
Proof.
  intros Hf Hv. rewrite transform_record_unfold. unfold rmap, normalize.
  destruct (foldl normalize_array _ array_fields) as [d1|e] eqn:H1;
    simpl; [|done].
  destruct (decode_raw d1) as [d2|e] eqn:H2; simpl; [|done].
  intros H; inversion H; subst rec; clear H.
  destruct (array_fields_not_metadata f Hf) as (Hm & Hr & _).
  rewrite stamp_lookup_other by done.
  rewrite (decode_raw_other _ _ _ Hr H2).
  destruct (foldl_normalize_field _ _ _ f NoDup_array_fields Hf H1)
    as (v' & l' & Hv' & Hl' & ->).
  rewrite Hv in Hv'. inversion Hv'; subst v'.
  split.
  - intros [->| ->]; simpl in Hl'; by inversion Hl'.
  - intros l -> Hl. destruct l as [|x l]; [done|].
    simpl in Hl'. by inversion Hl'.
Qed.

(** The two stamps of a WriteRecord, removed. *)
Definition without_stamps (rec : gmap string pyval) : gmap string pyval :=
  delete "overture_updated_at" (delete "updated_at" rec).

Lemma without_stamps_stamp (now1 now2 : string) (d : gmap string pyval) :
  without_stamps (stamp now1 now2 d)
  = without_stamps (<["overture_version" := VStr OVERTURE_VERSION]> d).
Proof.
  unfold without_stamps, stamp.
  rewrite delete_insert_eq.
  rewrite (delete_insert_ne _ "updated_at" "overture_updated_at") by done.
  by rewrite delete_insert_eq.
Qed.

(** C8: two transforms of one row, at any two pairs of clock readings,
    raise the same exception or give records that are equal once
    [overture_updated_at] and [updated_at] are removed. *)
Theorem C8_transform_deterministic (now1 now2 now1' now2' : string)
    (row : source_row) (cols : list string) :
  rmap without_stamps (transform_record now1 now2 row cols)
  = rmap without_stamps (transform_record now1' now2' row cols).
Proof.
  rewrite !transform_record_unfold. unfold rmap.
  destruct (normalize (dict_zip cols row)) as [d|e]; simpl; [|done].
  by rewrite !without_stamps_stamp.
Qed.

(** *** Reading a trace *)

(** The pages the fetches returned, the rows among them, and the write
    calls, each in program order. *)
Definition fetches (tr : list event) : list (list source_row) :=
  flat_map (fun ev => match ev with
                      | EvFetchMany _ rows => [rows]
                      | _ => []
                      end) tr.

Definition page_pulls (tr : list event) : nat := length (fetches tr).

Definition pulled_rows (tr : list event) : list source_row :=
  concat (fetches tr).

Definition rows_pulled (tr : list event) : nat := length (pulled_rows tr).

Definition upserts (tr : list event) : list (payload * string) :=
  flat_map (fun ev => match ev with
                      | EvUpsert p k => [(p, k)]
                      | _ => []
                      end) tr.

Definition write_calls (tr : list event) : nat := length (upserts tr).

Definition counts (tr : list event) : list (list string) :=
  flat_map (fun ev => match ev with
                      | EvCount w => [w]
                      | _ => []
                      end) tr.

Definition printed (tr : list event) : list string :=
  flat_map (fun ev => match ev with
                      | EvPrint text => [text]
                      | _ => []
                      end) tr.

Lemma fetches_app (a b : list event) :
  fetches (a ++ b) = fetches a ++ fetches b.
Proof. apply flat_map_app. Qed.

Lemma upserts_app (a b : list event) :
  upserts (a ++ b) = upserts a ++ upserts b.
Proof. apply flat_map_app. Qed.

Lemma counts_app (a b : list event) :
  counts (a ++ b) = counts a ++ counts b.
Proof. apply flat_map_app. Qed.

Lemma printed_app (a b : list event) :
  printed (a ++ b) = printed a ++ printed b.
Proof. apply flat_map_app. Qed.

(** *** The transform phase of a page *)

Lemma count_error_samples (msg : string) (s : run) :
  length (error_samples s) <= 5 ->
  length (error_samples (count_error msg s)) <= 5.
Proof.
  intros H. unfold count_error; simpl.
  destruct (Nat.ltb_spec (length (error_samples s)) 5);
    [rewrite length_app; simpl; lia|done].
Qed.

(** The records of a batch come from rows of the page. *)
Definition from_rows (rows : list source_row) (rec : gmap string pyval)
  : Prop :=
  exists row now1 now2,
    row ∈ rows /\ transform_record now1 now2 row columns = Ok rec.

Lemma from_rows_mono (rows rows' : list source_row)
    (rec : gmap string pyval) :
  rows ⊆ rows' -> from_rows rows rec -> from_rows rows' rec.
Proof.
  intros Hsub (row & n1 & n2 & Hin & Ht). exists row, n1, n2. split; auto.
Qed.

Lemma transform_rows_spec (rows : list source_row)
    (batch : list (gmap string pyval)) (s : run) :
  exists new s',
    transform_rows rows batch s = (batch ++ new, s')
    /\ trace s' = trace s /\ supabase s' = supabase s
    /\ imported s' = imported s /\ pbar s' = pbar s
    /\ errors s' + length new = errors s + length rows
    /\ (length (error_samples s) <= 5 -> length (error_samples s') <= 5)
    /\ Forall (from_rows rows) new.
Proof.
  revert batch s. induction rows as [|row rows IH]; intros batch s.
  - exists [], s. rewrite app_nil_r. simpl. repeat split; auto.
  - cbn [transform_rows].
    destruct (transform_record _ _ row columns) as [rec|e] eqn:Ht.
    + destruct (IH (batch ++ [rec]) (clock_read2 s))
        as (new & s' & -> & Htr & Hst & Him & Hpb & Her & Hsm & Hall).
      exists (rec :: new), s'. rewrite <- app_assoc. simpl.
      repeat split; auto; try (simpl in *; lia).
      constructor.
      * exists row, (utcnow_isoformat (ticks s)),
          (utcnow_isoformat (S (ticks s))). split; [left|done].
      * eapply Forall_impl; [exact Hall|]. intros r.
        apply from_rows_mono. intros x Hx. by right.
    + destruct (IH batch (count_error ("Transform error: " +:+ exn_str e) s))
        as (new & s' & -> & Htr & Hst & Him & Hpb & Her & Hsm & Hall).
      exists new, s'. repeat split; auto; try (simpl in *; lia).
      * intros H. apply Hsm. by apply count_error_samples.
      * eapply Forall_impl; [exact Hall|]. intros r.
        apply from_rows_mono. intros x Hx. by right.
Qed.

(** A page none of whose rows transforms leaves an empty batch. *)
Lemma transform_rows_all_fail (rows : list source_row) (s : run) :
  Forall (fun row => forall now1 now2,
            is_ok (transform_record now1 now2 row columns) = false) rows ->
  fst (transform_rows rows [] s) = [].
Proof.
  revert s. induction rows as [|row rows IH]; intros s Hall; [done|].
  apply Forall_cons in Hall as [Hrow Hall]. cbn [transform_rows].
  specialize (Hrow (utcnow_isoformat (ticks s))
                (utcnow_isoformat (S (ticks s)))).
  destruct (transform_record _ _ row columns); [done|]. by apply IH.
Qed.

(** *** The sink: one batch, with its fallback *)

(** The outcome of each single-record upsert of a fallback that starts on
    store [st]; the store a call leaves is the store the next one finds. *)
Fixpoint single_outcomes (st : Store) (batch : list (gmap string pyval))
  : list (gmap string pyval * option exn) :=
  match batch with
  | [] => []
  | record :: batch' =>
      let '(st', outcome) := upsert st (One record) "id" in
      (record, outcome) :: single_outcomes st' batch'
  end.

Fixpoint successes (outs : list (gmap string pyval * option exn)) : nat :=
  match outs with
  | [] => 0
  | (_, None) :: outs' => S (successes outs')
  | (_, Some _) :: outs' => successes outs'
  end.

Fixpoint failures (outs : list (gmap string pyval * option exn)) : nat :=
  match outs with
  | [] => 0
  | (_, None) :: outs' => failures outs'
  | (_, Some _) :: outs' => S (failures outs')
  end.

(** The description of each failed record: its key and the error text. *)
Definition insert_error (record : gmap string pyval) (e2 : exn) : string :=
  "Insert error for " +:+ py_str (get_default record "id" (VStr "?"))
  +:+ ": " +:+ exn_str e2.

Fixpoint failure_texts (outs : list (gmap string pyval * option exn))
  : list string :=
  match outs with
  | [] => []
  | (record, Some e2) :: outs' => insert_error record e2 :: failure_texts outs'
  | (_, None) :: outs' => failure_texts outs'
  end.

(** Appending under the cap of five samples. *)
Definition add_samples (samples msgs : list string) : list string :=
  samples ++ take (5 - length samples) msgs.

Lemma add_samples_nil (samples : list string) :
  add_samples samples [] = samples.
Proof. unfold add_samples. by rewrite take_nil, app_nil_r. Qed.

Lemma add_samples_cons (samples msgs : list string) (msg : string) :
  add_samples
    (if (length samples <? 5)%nat then samples ++ [msg] else samples) msgs
  = add_samples samples (msg :: msgs).
Proof.
  unfold add_samples.
  destruct (Nat.ltb_spec (length samples) 5) as [Hlt|Hge].
  - rewrite length_app; simpl.
    replace (5 - length samples) with (S (5 - (length samples + 1))) by lia.
    simpl. by rewrite <- app_assoc.
  - by replace (5 - length samples) with 0 by lia.
Qed.

Lemma add_samples_length (samples msgs : list string) :
  length samples <= 5 -> length (add_samples samples msgs) <= 5.
Proof.
  intros H. unfold add_samples. rewrite length_app, length_take. lia.
Qed.

Lemma failures_length (outs : list (gmap string pyval * option exn)) :
  length (failure_texts outs) = failures outs.
Proof.
  induction outs as [|[r [e|]] outs IH]; simpl; [done| |done].
  by rewrite IH.
Qed.

Lemma successes_failures (outs : list (gmap string pyval * option exn)) :
  successes outs + failures outs = length outs.
Proof. induction outs as [|[r [e|]] outs IH]; simpl; lia. Qed.

Lemma single_outcomes_records (st : Store)
    (batch : list (gmap string pyval)) :
  map fst (single_outcomes st batch) = batch.
Proof.
  revert st. induction batch as [|r batch IH]; intros st; simpl; [done|].
  destruct (upsert st (One r) "id") as [st' o]. simpl. by rewrite IH.
Qed.

Lemma upsert_singles_spec (batch : list (gmap string pyval)) (s : run) :
  let outs := single_outcomes (supabase s) batch in
  let s' := upsert_singles batch s in
  trace s' = trace s ++ map (fun r => EvUpsert (One r) "id") batch
  /\ imported s' = imported s + successes outs
  /\ errors s' = errors s + failures outs
  /\ error_samples s' = add_samples (error_samples s) (failure_texts outs)
  /\ pbar s' = pbar s.
Proof.
  revert s. induction batch as [|r batch IH]; intros s; simpl.
  - rewrite app_nil_r, add_samples_nil. repeat split; lia.
  - unfold do_upsert.
    destruct (upsert (supabase s) (One r) "id") as [st' [e2|]] eqn:Hup.
    + match goal with |- context [upsert_singles batch ?s1] =>
        destruct (IH s1) as (Htr & Him & Her & Hsm & Hpb) end.
      simpl in *. rewrite Htr, Him, Her, Hsm, Hpb.
      fold (insert_error r e2). rewrite add_samples_cons.
      rewrite <- app_assoc. repeat split; lia.
    + match goal with |- context [upsert_singles batch ?s1] =>
        destruct (IH s1) as (Htr & Him & Her & Hsm & Hpb) end.
      simpl in *. rewrite Htr, Him, Her, Hsm, Hpb.
      rewrite <- app_assoc. repeat split; lia.
Qed.

(** C4: when the multi-record call fails, every record of the batch is
    upserted alone, once and in batch order, whatever the earlier single
    calls returned; the successes are added to [imported], the failures to
    [errors], and the failure descriptions (record key and error text)
    are kept up to the cap of five samples. *)
Theorem C4_fallback_isolates_failures (batch : list (gmap string pyval))
    (s : run) (st' : Store) (e : exn) :
  batch <> [] ->
  upsert (supabase s) (Many batch) "id" = (st', Some e) ->
  let outs := single_outcomes st' batch in
  let s' := upsert_batch batch s in
  map fst outs = batch
  /\ trace s' = trace s ++ EvUpsert (Many batch) "id"
                  :: map (fun r => EvUpsert (One r) "id") batch
  /\ imported s' = imported s + successes outs
  /\ errors s' = errors s + failures outs
  /\ successes outs + failures outs = length batch
  /\ error_samples s'
     = error_samples s
       ++ take (5 - length (error_samples s)) (failure_texts outs)
  /\ (length (error_samples s) <= 5 -> length (error_samples s') <= 5).
Proof.
  intros Hne Hup outs s'. subst outs s'.
  destruct batch as [|r batch]; [done|].
  unfold upsert_batch, do_upsert. rewrite Hup.
  match goal with |- context [upsert_singles _ ?s1] =>
    destruct (upsert_singles_spec (r :: batch) s1)
      as (Htr & Him & Her & Hsm & Hpb) end.
  cbn [supabase trace imported errors error_samples log] in *.
  rewrite Htr, Him, Her, Hsm.
  split; [apply single_outcomes_records|].
  split; [by rewrite <- app_assoc|].
  split; [done|]. split; [done|].
  split; [rewrite successes_failures, <- (length_map fst);
          by rewrite single_outcomes_records|].
  split; [done|]. apply add_samples_length.
Qed.

Definition records_of (p : payload) : list (gmap string pyval) :=
  match p with
  | Many batch => batch
  | One record => [record]
  end.

(** A write call made for records of the given ones, keyed on [id]. *)
Definition write_of (batch : list (gmap string pyval))
    (w : payload * string) : Prop :=
  snd w = "id" /\ records_of (fst w) ⊆ batch.

Lemma fetches_upsert_events (batch : list (gmap string pyval)) :
  fetches (map (fun r => EvUpsert (One r) "id") batch) = [].
Proof. induction batch as [|r batch IH]; simpl; [done|apply IH]. Qed.

Lemma upserts_upsert_events (batch : list (gmap string pyval)) :
  upserts (map (fun r => EvUpsert (One r) "id") batch)
  = map (fun r => (One r, "id")) batch.
Proof. induction batch as [|r batch IH]; simpl; [done|by rewrite IH]. Qed.

Lemma single_writes_of (batch : list (gmap string pyval)) :
  Forall (write_of batch) (map (fun r => (One r, "id")) batch).
Proof.
  apply Forall_forall. intros w Hw.
  apply list_elem_of_fmap in Hw as (r & -> & Hr).
  split; [done|]. simpl. intros x Hx.
  apply list_elem_of_singleton in Hx. by subst x.
Qed.

Lemma upsert_batch_spec (batch : list (gmap string pyval)) (s : run) :
  let s' := upsert_batch batch s in
  imported s' + errors s' = imported s + errors s + length batch
  /\ pbar s' = pbar s
  /\ fetches (trace s') = fetches (trace s)
  /\ (length (error_samples s) <= 5 -> length (error_samples s') <= 5)
  /\ exists new,
       upserts (trace s') = upserts (trace s) ++ new
       /\ Forall (write_of batch) new.
Proof.
  destruct batch as [|r batch].
  { simpl. repeat split; try lia. exists []. by rewrite app_nil_r. }
  unfold upsert_batch, do_upsert.
  destruct (upsert (supabase s) (Many (r :: batch)) "id") as [st' [e|]].
  - match goal with |- context [upsert_singles _ ?s1] =>
      destruct (upsert_singles_spec (r :: batch) s1)
        as (Htr & Him & Her & Hsm & Hpb) end.
    cbn zeta. cbn [supabase trace imported errors error_samples log pbar] in *.
    rewrite Htr, Him, Her, Hsm, Hpb.
    pose proof (successes_failures (single_outcomes st' (r :: batch))) as Hsf.
    rewrite <- (length_map fst), single_outcomes_records in Hsf.
    split; [lia|]. split; [done|].
    split.
    { rewrite !fetches_app, fetches_upsert_events. simpl.
      by rewrite !app_nil_r. }
    split; [apply add_samples_length|].
    exists ((Many (r :: batch), "id")
            :: map (fun r => (One r, "id")) (r :: batch)).
    split.
    { rewrite !upserts_app, upserts_upsert_events. simpl.
      by rewrite <- app_assoc. }
    constructor; [by split|apply single_writes_of].
  - cbn zeta. cbn [supabase trace imported errors error_samples log pbar
                     add_imported].
    split; [lia|]. split; [done|].
    split; [rewrite fetches_app; simpl; by rewrite app_nil_r|].
    split; [done|].
    exists [(Many (r :: batch), "id")].
    split; [by rewrite upserts_app|].
    constructor; [by split|constructor].
Qed.

(** A write call all of whose records are transforms of the given rows. *)
Definition write_from (rows : list source_row) (w : payload * string)
  : Prop :=
  snd w = "id" /\ Forall (from_rows rows) (records_of (fst w)).

Lemma write_from_mono (rows rows' : list source_row)
    (w : payload * string) :
  rows ⊆ rows' -> write_from rows w -> write_from rows' w.
Proof.
  intros Hsub [Hk Hall]. split; [done|].
  eapply Forall_impl; [exact Hall|]. intros r. by apply from_rows_mono.
Qed.

Lemma process_page_spec (rows : list source_row) (s : run) :
  let s' := process_page rows s in
  imported s' + errors s' = imported s + errors s + length rows
  /\ pbar s' = pbar s + length rows
  /\ fetches (trace s') = fetches (trace s)
  /\ (length (error_samples s) <= 5 -> length (error_samples s') <= 5)
  /\ exists new,
       upserts (trace s') = upserts (trace s) ++ new
       /\ Forall (write_from rows) new.
Proof.
  unfold process_page.
  destruct (transform_rows_spec rows [] s)
    as (batch & s1 & -> & Htr & Hst & Him & Hpb & Her & Hsm & Hall).
  simpl app.
  destruct (upsert_batch_spec batch s1)
    as (Hcnt & Hpb' & Hfe & Hsm' & new & Hup & Hnew).
  cbn zeta in *. cbn [pbar_update imported errors pbar trace error_samples].
  rewrite Hfe, Hup, Htr.
  split; [lia|]. split; [lia|]. split; [done|]. split; [auto|].
  exists new. split; [done|].
  eapply Forall_impl; [exact Hnew|]. intros w [Hk Hsub].
  split; [done|]. apply Forall_forall. intros r Hr.
  rewrite Forall_forall in Hall. apply Hall. by apply Hsub.
Qed.

(** C10: a page on which every row fails the transform makes no call to
    the store: the trace and the table are as before the page. *)
Theorem C10_no_write_for_empty_batch (rows : list source_row) (s : run) :
  Forall (fun row => forall now1 now2,
            is_ok (transform_record now1 now2 row columns) = false) rows ->
  trace (process_page rows s) = trace s
  /\ supabase (process_page rows s) = supabase s
  /\ write_calls (trace (process_page rows s)) = write_calls (trace s).
Proof.
  intros Hall. unfold process_page.
  pose proof (transform_rows_all_fail rows s Hall) as Hb.
  destruct (transform_rows_spec rows [] s)
    as (batch & s1 & Heq & Htr & Hst & _).
  rewrite Heq in *. simpl in Hb. subst batch. simpl.
  by rewrite Htr, Hst.
Qed.

(** *** The fetch loop *)

(** The fetches a cursor of [n] rows takes: one per page, full or not, and
    the last one, which returns nothing. *)
Definition pulls_for (n : nat) : nat := (n + (BATCH_SIZE - 1)) / BATCH_SIZE + 1.

Lemma pulls_for_0 : pulls_for 0 = 1.
Proof. reflexivity. Qed.

Lemma pulls_for_page (n k : nat) :
  0 < k -> k = Nat.min BATCH_SIZE n ->
  pulls_for n = S (pulls_for (n - BATCH_SIZE)).
Proof.
  unfold pulls_for, BATCH_SIZE. intros Hk Hmin.
  destruct (Nat.le_gt_cases 500 n) as [Hge|Hlt].
  - replace (n + (500 - 1)) with ((n - 500 + (500 - 1)) + 1 * 500) by lia.
    rewrite Nat.div_add by lia. lia.
  - replace (n - 500) with 0 by lia.
    replace ((0 + (500 - 1)) / 500) with 0 by reflexivity.
    assert ((n + (500 - 1)) / 500 = 1) as ->; [|lia].
    symmetry. apply Nat.div_unique with (n - 1); lia.
Qed.

Lemma take_nil_inv {A} (n : nat) (l : list A) :
  0 < n -> take n l = [] -> l = [].
Proof. intros Hn H. destruct n; [lia|]. by destruct l. Qed.

Lemma import_loop_spec (fuel : nat) (cursor : list source_row)
    (s s' : run) :
  import_loop fuel cursor s = Some s' ->
  imported s' + errors s' = imported s + errors s + length cursor
  /\ pbar s' = pbar s + length cursor
  /\ pulled_rows (trace s') = pulled_rows (trace s) ++ cursor
  /\ page_pulls (trace s') = page_pulls (trace s) + pulls_for (length cursor)
  /\ (length (error_samples s) <= 5 -> length (error_samples s') <= 5)
  /\ exists new,
       upserts (trace s') = upserts (trace s) ++ new
       /\ Forall (write_from cursor) new.
Proof.
  revert cursor s. induction fuel as [|fuel IH]; intros cursor s H; [done|].
  cbn [import_loop] in H. unfold fetchmany in H.
  destruct (take BATCH_SIZE cursor) as [|r rows] eqn:Htake.
  - inversion H; subst s'; clear H.
    apply take_nil_inv in Htake; [|unfold BATCH_SIZE; lia]. subst cursor.
    unfold pulled_rows, page_pulls. cbn [log trace imported errors pbar
      error_samples length]. rewrite !fetches_app, upserts_app. simpl.
    rewrite concat_app, length_app. simpl. rewrite !app_nil_r.
    repeat split; try lia; auto.
    exists []. by rewrite app_nil_r.
  - apply IH in H as (Hcnt & Hpb & Hrows & Hpp & Hsm & new & Hup & Hnew).
    match type of Hcnt with context [process_page ?rs ?s1] =>
      destruct (process_page_spec rs s1)
        as (Hcnt1 & Hpb1 & Hfe1 & Hsm1 & new1 & Hup1 & Hnew1) end.
    cbn zeta in *.
    unfold pulled_rows, page_pulls in *.
    rewrite Hfe1 in Hrows, Hpp. rewrite Hup1 in Hup.
    cbn [log trace imported errors pbar error_samples] in *.
    rewrite fetches_app in Hrows, Hpp. rewrite upserts_app in Hup.
    simpl in Hrows, Hpp, Hup. rewrite app_nil_r in Hup.
    rewrite concat_app in Hrows. simpl in Hrows.
    rewrite app_nil_r, <- app_assoc in Hrows.
    rewrite length_app in Hpp. simpl in Hpp.
    assert (cursor = (r :: rows) ++ drop BATCH_SIZE cursor) as Hcur
      by (rewrite <- Htake; symmetry; apply take_drop).
    assert (length (r :: rows) = Nat.min BATCH_SIZE (length cursor)) as Hlen
      by (rewrite <- Htake; apply length_take).
    rewrite length_drop in Hcnt, Hpb, Hpp.
    assert (length cursor
            = length (r :: rows) + (length cursor - BATCH_SIZE)) as Hsplit.
    { rewrite Hcur at 1. by rewrite length_app, length_drop. }
    rewrite (pulls_for_page (length cursor) (length (r :: rows)))
      by (simpl; lia || done).
    split; [lia|]. split; [lia|].
    split; [by rewrite Hrows, <- Hcur|].
    split; [lia|]. split; [auto|].
    exists (new1 ++ new). split; [by rewrite Hup, app_assoc|].
    apply Forall_app. split.
    + eapply Forall_impl; [exact Hnew1|]. intros w.
      apply write_from_mono. intros x Hx. rewrite Hcur.
      apply elem_of_app. by left.
    + eapply Forall_impl; [exact Hnew|]. intros w.
      apply write_from_mono. intros x Hx. rewrite Hcur.
      apply elem_of_app. by right.
Qed.

(** The loop ends: fuel above the number of rows is never used up. *)
Lemma import_loop_terminates (fuel : nat) (cursor : list source_row)
    (s : run) :
  length cursor < fuel -> exists s', import_loop fuel cursor s = Some s'.
Proof.
  revert cursor s. induction fuel as [|fuel IH]; intros cursor s H; [lia|].
  cbn [import_loop]. unfold fetchmany.
  destruct (take BATCH_SIZE cursor) as [|r rows] eqn:Htake; [eauto|].
  apply IH. rewrite length_drop.
  assert (length (r :: rows) = Nat.min BATCH_SIZE (length cursor)) as Hlen
    by (rewrite <- Htake; apply length_take).
  unfold BATCH_SIZE in *. cbn [length] in Hlen. lia.
Qed.

(** *** [main] as a whole *)

(** Events that are neither a fetch nor a write. *)
Definition silent (ev : event) : bool :=
  match ev with
  | EvFetchMany _ _ | EvUpsert _ _ => false
  | _ => true
  end.

(** [s] differs from [s0] by silent events only. *)
Definition quiet (s0 s : run) : Prop :=
  imported s = imported s0 /\ errors s = errors s0
  /\ error_samples s = error_samples s0 /\ pbar s = pbar s0
  /\ supabase s = supabase s0
  /\ fetches (trace s) = fetches (trace s0)
  /\ upserts (trace s) = upserts (trace s0).

Lemma quiet_refl (s : run) : quiet s s.
Proof. by repeat split. Qed.

Lemma quiet_log (s0 s : run) (ev : event) :
  silent ev = true -> quiet s0 s -> quiet s0 (log ev s).
Proof.
  intros Hev (H1 & H2 & H3 & H4 & H5 & H6 & H7).
  unfold quiet. cbn [log imported errors error_samples pbar supabase trace].
  rewrite fetches_app, upserts_app.
  destruct ev; try discriminate Hev; simpl; rewrite !app_nil_r;
    by repeat split.
Qed.

Lemma quiet_trans (s0 s1 s2 : run) :
  quiet s0 s1 -> quiet s1 s2 -> quiet s0 s2.
Proof.
  intros (H1 & H2 & H3 & H4 & H5 & H6 & H7)
         (K1 & K2 & K3 & K4 & K5 & K6 & K7).
  unfold quiet. rewrite K1, K2, K3, K4, K5, K6, K7. by repeat split.
Qed.

Lemma quiet_print_all (s0 s : run) (texts : list string) :
  quiet s0 s -> quiet s0 (foldl (fun s err => print ("  - " +:+ err) s) s texts).
Proof.
  revert s. induction texts as [|t texts IH]; intros s H; simpl; [done|].
  apply IH. by apply quiet_log.
Qed.

Ltac quiet_steps :=
  repeat first
    [ apply quiet_refl
    | assumption
    | apply quiet_print_all
    | apply quiet_log; [reflexivity|] ].

Lemma report_quiet (s0 s : run) : quiet s0 s -> quiet s0 (report s).
Proof.
  intros H. unfold report, print.
  destruct (error_samples _) eqn:Hs; quiet_steps.
Qed.

(** How a run of [main] can end: before the query is executed, or after
    the fetch loop and the report. *)
Lemma main_cases (fuel : nat) (args : Args) (environ : gmap string string)
    (reply : string) (store0 : Store) (e : exit) (s : run) :
  main fuel args environ reply store0 = Some (e, s) ->
  quiet (init_run store0) s
  \/ exists s0 cursor s1,
       quiet (init_run store0) s0
       /\ execute (build_query (limit args) (category args) (state args))
          = Ok cursor
       /\ import_loop fuel cursor s0 = Some s1
       /\ quiet s1 s.
Proof.
  assert (forall s0, quiet (init_run store0) s0 ->
            import_all fuel args s0 = Some (e, s) ->
            quiet (init_run store0) s
            \/ exists s0 cursor s1,
                 quiet (init_run store0) s0
                 /\ execute (build_query (limit args) (category args)
                               (state args)) = Ok cursor
                 /\ import_loop fuel cursor s0 = Some s1
                 /\ quiet s1 s) as Himport.
  { intros s0 Hq. unfold import_all, print.
    destruct (execute _) as [cursor|ex] eqn:Hex.
    - destruct (import_loop fuel cursor _) as [s1|] eqn:Hloop; [|done].
      intros H; inversion H; subst. right.
      eexists _, cursor, s1. split; [|split; [done|split; [exact Hloop|]]].
      + quiet_steps.
      + apply report_quiet, quiet_refl.
    - intros H; inversion H; subst. left. quiet_steps. }
  unfold main, print, setup_duckdb, count_records.
  destruct (get_supabase_client environ).
  - destruct (str_given (category args)), (str_given (state args));
      (destruct (dry_run args);
       [intros H; inversion H; subst; left; quiet_steps|];
       destruct ((10000 <? _)%Z && negb (yes args));
       [destruct (String.eqb (lower reply) "y");
        [apply Himport; quiet_steps
        |intros H; inversion H; subst; left; quiet_steps]
       |apply Himport; quiet_steps]).
  - intros H; inversion H; subst. left. quiet_steps.
Qed.

Lemma execute_rows (q : query) (cursor : list source_row) :
  execute q = Ok cursor ->
  cursor = match q_limit q with
           | Some n => take (Z.to_nat n) (db_select (q_where q))
           | None => db_select (q_where q)
           end.
Proof.
  unfold execute. destruct (q_limit q) as [n|]; [|by inversion 1].
  destruct (n <? 0)%Z; [done|].
  destruct (2 ^ 63 <=? n)%Z; [done|by inversion 1].
Qed.

(** The rows the query of a run selects before any LIMIT. *)
Definition matching (args : Args) : list source_row :=
  db_select (where_clauses (category args) (state args)).

Lemma execute_length (args : Args) (cursor : list source_row) :
  execute (build_query (limit args) (category args) (state args)) = Ok cursor ->
  length cursor <= length (matching args).
Proof.
  intros H. apply execute_rows in H. subst cursor. simpl. unfold matching.
  destruct (int_given (limit args)); [|done].
  rewrite length_take. lia.
Qed.

Lemma import_all_terminates (fuel : nat) (args : Args) (s0 : run) :
  length (matching args) < fuel ->
  exists e s, import_all fuel args s0 = Some (e, s).
Proof.
  intros Hfuel. unfold import_all.
  destruct (execute _) as [cursor|ex] eqn:Hex; [|eauto].
  apply execute_length in Hex.
  match goal with |- context [import_loop fuel cursor ?s1] =>
    destruct (import_loop_terminates fuel cursor s1) as [s' ->]; [lia|] end.
  eauto.
Qed.

Lemma main_terminates (fuel : nat) (args : Args)
    (environ : gmap string string) (reply : string) (store0 : Store) :
  length (matching args) < fuel ->
  exists e s, main fuel args environ reply store0 = Some (e, s).
Proof.
  intros Hfuel. unfold main, count_records.
  destruct (get_supabase_client environ); [|eauto].
  destruct (dry_run args); [eauto|].
  destruct ((10000 <? _)%Z && negb (yes args));
    [destruct (String.eqb (lower reply) "y"); [|eauto]|];
    by apply import_all_terminates.
Qed.

(** C3: a run given fuel above the number of matching rows ends, and at
    its end [imported + errors] is the number of rows the fetches
    returned, which is also what the progress bar was told. *)
Theorem C3_imported_plus_errors_is_rows_pulled (fuel : nat) (args : Args)
    (environ : gmap string string) (reply : string) (store0 : Store) :
  length (matching args) < fuel ->
  exists e s,
    main fuel args environ reply store0 = Some (e, s)
    /\ imported s + errors s = rows_pulled (trace s)
    /\ pbar s = rows_pulled (trace s).
Proof.
  intros Hfuel.
  destruct (main_terminates fuel args environ reply store0 Hfuel)
    as (e & s & Hmain).
  exists e, s. split; [done|]. unfold rows_pulled, pulled_rows.
  destruct (main_cases _ _ _ _ _ _ _ Hmain)
    as [(H1 & H2 & _ & H4 & _ & H6 & _)
       |(s0 & cursor & s1 & (H1 & H2 & _ & H4 & _ & H6 & _) & _ & Hloop
         & (K1 & K2 & _ & K4 & _ & K6 & _))].
  - rewrite H1, H2, H4, H6. done.
  - apply import_loop_spec in Hloop as (Hcnt & Hpb & Hrows & _).
    unfold pulled_rows in Hrows.
    rewrite K1, K2, K4, K6, Hrows, H6, Hpb, H4. simpl in *. lia.
Qed.


Lemma dict_zip_head (c : string) (cols : list string) (v : pyval)
    (row : source_row) :
  c ∉ cols -> dict_zip (c :: cols) (v :: row) !! c = Some v.
Proof.
  intros Hc. unfold dict_zip.
  change (fun m kv => <[kv.1 := kv.2]> m) with put.
  change (zip (c :: cols) (v :: row)) with ((c, v) :: zip cols row).
  cbn [foldl]. unfold put at 2. cbn [fst snd].
  rewrite foldl_put_insert; [apply lookup_insert_eq|].
  intros Hin. by apply fst_zip_subset in Hin.
Qed.

(** The first column of a row is what its mapping holds under [id]. *)
Lemma dict_zip_id (row : source_row) :
  dict_zip columns row !! "id" = row !! 0.
Proof.
  destruct row as [|v row]; [done|].
  unfold columns. apply dict_zip_head. intros Hin.
  repeat (apply elem_of_cons in Hin as [Hin|Hin]; [discriminate Hin|]).
  by apply elem_of_nil in Hin.
Qed.

(** A write call keyed on [id] whose records each carry the identifier of
    one of the given rows. *)
Definition keeps_id (rows : list source_row) (w : payload * string) : Prop :=
  snd w = "id"
  /\ Forall (fun rec : gmap string pyval =>
               exists row, row ∈ rows /\ rec !! "id" = row !! 0)
       (records_of (fst w)).

Lemma write_from_keeps_id (rows : list source_row) (w : payload * string) :
  write_from rows w -> keeps_id rows w.
Proof.
  intros [Hk Hall]. split; [done|].
  eapply Forall_impl; [exact Hall|].
  intros rec (row & n1 & n2 & Hin & Ht). exists row. split; [done|].
  rewrite <- dict_zip_id. by eapply transform_record_id.
Qed.

(** C9: the record [transform_record] returns holds under [id] the value
    of the row's first column, unchanged; and in a run of [main] every
    write call names [id] as its conflict key and every record it carries
    has the identifier of a row that was fetched. *)
Theorem C9_id_preserved_end_to_end :
  (forall now1 now2 row rec,
     transform_record now1 now2 row columns = Ok rec ->
     rec !! "id" = row !! 0)
  /\ (forall fuel args environ reply store0 e s,
        main fuel args environ reply store0 = Some (e, s) ->
        Forall (keeps_id (pulled_rows (trace s))) (upserts (trace s))).
Proof.
  split.
  - intros now1 now2 row rec H. rewrite <- dict_zip_id.
    by eapply transform_record_id.
  - intros fuel args environ reply store0 e s Hmain.
    unfold pulled_rows.
    destruct (main_cases _ _ _ _ _ _ _ Hmain)
      as [(_ & _ & _ & _ & _ & H6 & H7)
         |(s0 & cursor & s1 & (_ & _ & _ & _ & _ & H6 & H7) & _ & Hloop
           & (_ & _ & _ & _ & _ & K6 & K7))].
    + rewrite H7. constructor.
    + apply import_loop_spec in Hloop
        as (_ & _ & Hrows & _ & _ & new & Hup & Hnew).
      unfold pulled_rows in Hrows.
      rewrite K6, K7, Hrows, Hup, H6, H7. simpl.
      eapply Forall_impl; [exact Hnew|]. apply write_from_keeps_id.
Qed.

(** *** More on the transformer *)

Lemma foldl_put_lookup_other (kvs : list (string * pyval))
    (m : gmap string pyval) (c : string) :
  c ∉ kvs.*1 -> foldl put m kvs !! c = m !! c.
Proof.
  revert m. induction kvs as [|[k w] kvs IH]; intros m Hc; simpl; [done|].
  simpl in Hc. apply not_elem_of_cons in Hc as [Hck Hc].
  rewrite IH by done. unfold put; simpl. by rewrite lookup_insert_ne.
Qed.

Lemma foldl_put_lookup (cols : list string) (row : source_row)
    (m : gmap string pyval) (i : nat) (c : string) :
  NoDup cols -> cols !! i = Some c ->
  foldl put m (zip cols row) !! c
  = match row !! i with
    | Some v => Some v
    | None => m !! c
    end.
Proof.
  revert row m i. induction cols as [|k cols IH]; intros row m i Hnd Hi.
  - done.
  - apply NoDup_cons in Hnd as [Hk Hnd].
    destruct row as [|w row]; [done|].
    change (zip (k :: cols) (w :: row)) with ((k, w) :: zip cols row).
    cbn [foldl]. unfold put at 2. cbn [fst snd].
    destruct i as [|i]; simpl in Hi |- *.
    + inversion Hi; subst k.
      rewrite foldl_put_lookup_other; [apply lookup_insert_eq|].
      intros Hin. by apply fst_zip_subset in Hin.
    + rewrite (IH _ _ i) by done.
      destruct (row !! i); [done|].
      apply lookup_insert_ne. intros ->. apply Hk.
      by eapply list_elem_of_lookup_2.
Qed.

(** The mapping of a row holds, under each column name, the value at the
    column's position. *)
Lemma dict_zip_lookup (cols : list string) (row : source_row) (i : nat)
    (c : string) :
  NoDup cols -> cols !! i = Some c -> dict_zip cols row !! c = row !! i.
Proof.
  intros Hnd Hi. unfold dict_zip.
  change (fun m kv => <[kv.1 := kv.2]> m) with put.
  rewrite (foldl_put_lookup _ _ _ i) by done.
  by destruct (row !! i).
Qed.

(** X1: every column that is neither an array field nor [raw] reaches the
    WriteRecord with the value the row holds at its position, whatever
    that value is. *)
Theorem X1_scalar_columns_copied (now1 now2 : string) (row : source_row)
    (i : nat) (c : string) (rec : gmap string pyval) :
  columns !! i = Some c ->
  c ∉ array_fields ->
  c <> "raw" ->
  transform_record now1 now2 row columns = Ok rec ->
  rec !! c = row !! i.
Proof.
  intros Hi Ha Hr Ht.
  rewrite (transform_record_other _ _ _ _ _ c Ha Hr
             (columns_not_metadata c (list_elem_of_lookup_2 _ _ _ Hi)) Ht).
  by apply dict_zip_lookup; [apply NoDup_columns|].
Qed.

Lemma dom_foldl_put (cols : list string) (row : source_row)
    (m : gmap string pyval) :
  length cols <= length row ->
  dom (foldl put m (zip cols row)) = dom m ∪ list_to_set cols.
Proof.
  clear json_loads json_dumps py_repr db_count db_select.
  revert row m. induction cols as [|k cols IH]; intros row m Hlen.
  - simpl. set_solver.
  - destruct row as [|w row]; [simpl in Hlen; lia|].
    change (zip (k :: cols) (w :: row)) with ((k, w) :: zip cols row).
    cbn [foldl]. rewrite IH by (simpl in Hlen; lia).
    unfold put; simpl. rewrite dom_insert_L. set_solver.
Qed.

Lemma dom_dict_zip (cols : list string) (row : source_row) :
  length cols <= length row -> dom (dict_zip cols row) = list_to_set cols.
Proof.
  intros Hlen. unfold dict_zip.
  change (fun m kv => <[kv.1 := kv.2]> m) with put.
  rewrite dom_foldl_put by done. rewrite dom_empty_L.
  apply (left_id_L ∅ (∪)).
Qed.

Lemma dom_insert_present (d : gmap string pyval) (k : string)
    (v w : pyval) :
  d !! k = Some v -> dom (<[k := w]> d) = dom d.
Proof.
  clear json_loads json_dumps py_repr db_count db_select.
  intros Hk. rewrite dom_insert_L.
  assert (k ∈ dom d) by (apply elem_of_dom; eauto). set_solver.
Qed.

Lemma dom_foldl_normalize (fs : list string) (d d' : gmap string pyval) :
  foldl normalize_array (Ok d) fs = Ok d' -> dom d' = dom d.
Proof.
  revert d. induction fs as [|f fs IH]; intros d H; cbn [foldl] in H.
  - by inversion H.
  - rewrite normalize_array_unfold in H. unfold getitem in H.
    destruct (d !! f) as [v|] eqn:Hd; simpl in H;
      [|by rewrite foldl_normalize_raise in H].
    destruct (array_value v) as [l|e]; simpl in H;
      [|by rewrite foldl_normalize_raise in H].
    rewrite (IH _ H). by eapply dom_insert_present.
Qed.

Lemma dom_decode_raw (d d' : gmap string pyval) :
  decode_raw d = Ok d' -> dom d' = dom d.
Proof.
  unfold decode_raw, getitem. intros H.
  destruct (d !! "raw") as [raw|] eqn:Hd; simpl in H; [|done].
  destruct (truthy raw); [|by inversion H].
  destruct raw; try (by inversion H).
  - destruct (json_loads s) as [j|e]; simpl in H; [|done].
    inversion H. by eapply dom_insert_present.
  - destruct (json_dumps (VDict kvs)) as [s|e]; simpl in H; [|done].
    destruct (json_loads s) as [j|e]; simpl in H; [|done].
    inversion H. by eapply dom_insert_present.
Qed.

Lemma stamped_keys (D : gset string) :
  {[ "updated_at" ]}
  ∪ ({[ "overture_updated_at" ]} ∪ ({[ "overture_version" ]} ∪ D))
  = D ∪ list_to_set metadata_fields.
Proof.
  clear json_loads json_dumps py_repr db_count db_select.
  unfold metadata_fields. set_solver.
Qed.

(** X2: a WriteRecord has exactly the nineteen columns and the three
    metadata fields as its keys; what a row holds beyond the nineteenth
    value is dropped. *)
Theorem X2_record_keys (now1 now2 : string) (row : source_row)
    (rec : gmap string pyval) :
  transform_record now1 now2 row columns = Ok rec ->
  dom rec = list_to_set (columns ++ metadata_fields).
Proof.
  intros Ht.
  assert (length columns <= length row) as Hlen.
  { destruct (Nat.le_gt_cases (length columns) (length row)) as [|Hlt];
      [done|].
    pose proof (transform_record_short_row now1 now2 row Hlt) as Hno.
    by rewrite Ht in Hno. }
  rewrite transform_record_unfold in Ht. unfold rmap, normalize in Ht.
  destruct (foldl normalize_array _ array_fields) as [d1|e] eqn:H1;
    simpl in Ht; [|done].
  destruct (decode_raw d1) as [d2|e] eqn:H2; simpl in Ht; [|done].
  inversion Ht; subst rec. unfold stamp. rewrite !dom_insert_L.
  rewrite (dom_decode_raw _ _ H2), (dom_foldl_normalize _ _ _ H1).
  rewrite dom_dict_zip by done.
  rewrite list_to_set_app_L. apply stamped_keys.
Qed.

Lemma array_value_raise (v : pyval) (e : exn) :
  array_value v = Raise e -> exists msg, e = TypeError msg.
Proof.
  unfold array_value. destruct (truthy v); [|done].
  destruct v; simpl; intros H; inversion H; eauto.
Qed.

Lemma foldl_normalize_raise_kind (fs : list string)
    (d : gmap string pyval) (e : exn) :
  foldl normalize_array (Ok d) fs = Raise e ->
  (exists k, e = KeyError k /\ k ∈ fs /\ d !! k = None)
  \/ (exists msg, e = TypeError msg).
Proof.
  revert d. induction fs as [|f fs IH]; intros d H; cbn [foldl] in H;
    [done|].
  rewrite normalize_array_unfold in H. unfold getitem in H.
  destruct (d !! f) as [v|] eqn:Hd; simpl in H.
  - destruct (array_value v) as [l|e'] eqn:Hl; simpl in H.
    + destruct (IH _ H) as [(k & -> & Hk & Hnone)|Hty]; [|by right].
      left. exists k. split; [done|]. split; [by right|].
      destruct (decide (f = k)) as [->|Hne];
        [by rewrite lookup_insert_eq in Hnone
        |by rewrite lookup_insert_ne in Hnone].
    + rewrite foldl_normalize_raise in H. inversion H; subst e'.
      right. by eapply array_value_raise.
  - rewrite foldl_normalize_raise in H. inversion H.
    left. exists f. split; [done|]. split; [by left|done].
Qed.

Lemma decode_raw_raise (d : gmap string pyval) (e : exn) :
  decode_raw d = Raise e ->
  (e = KeyError "raw" /\ d !! "raw" = None)
  \/ (exists s, json_loads s = Raise e)
  \/ (exists v, json_dumps v = Raise e).
Proof.
  unfold decode_raw, getitem. intros H.
  destruct (d !! "raw") as [raw|] eqn:Hd; simpl in H;
    [|inversion H; by left].
  destruct (truthy raw); [|done].
  destruct raw; try done.
  - destruct (json_loads s) as [j|e'] eqn:Hj; simpl in H; [done|].
    inversion H; subst e'. right. left. eauto.
  - destruct (json_dumps (VDict kvs)) as [s|e'] eqn:Hs; simpl in H.
    + destruct (json_loads s) as [j|e''] eqn:Hj; simpl in H; [done|].
      inversion H; subst e''. right. left. eauto.
    + inversion H; subst e'. right. right. eauto.
Qed.

Lemma raw_not_array_field : "raw" ∉ array_fields.
Proof.
  unfold array_fields. intros H.
  repeat (apply elem_of_cons in H as [H|H]; [discriminate H|]).
  by apply elem_of_nil in H.
Qed.

(** X3: a row of fewer than nineteen values is never transformed: it
    raises the [KeyError] of an array field or of [raw] that the row does
    not reach, unless an array field before it holds a truthy value that
    is not iterable, which raises a [TypeError] first. *)
Theorem X3_short_row_raises (now1 now2 : string) (row : source_row) :
  length row < length columns ->
  exists e,
    transform_record now1 now2 row columns = Raise e
    /\ ((exists k, e = KeyError k
                   /\ (k ∈ array_fields \/ k = "raw")
                   /\ dict_zip columns row !! k = None)
        \/ (exists msg, e = TypeError msg)).
Proof.
  intros Hlen. rewrite transform_record_unfold. unfold rmap, normalize.
  destruct (foldl normalize_array _ array_fields) as [d1|e] eqn:H1; simpl.
  - assert (d1 !! "raw" = None) as Hraw.
    { rewrite (foldl_normalize_other _ _ _ "raw" raw_not_array_field H1).
      by apply dict_zip_short_row. }
    unfold decode_raw, getitem. rewrite Hraw. simpl.
    eexists. split; [reflexivity|]. left. exists "raw".
    split; [done|]. split; [by right|]. by apply dict_zip_short_row.
  - exists e. split; [done|].
    destruct (foldl_normalize_raise_kind _ _ _ H1)
      as [(k & -> & Hk & Hnone)|Hty]; [left|by right].
    exists k. split; [done|]. split; [by left|done].
Qed.

(** X4: a row of at least nineteen values fails in one of three ways
    only: a [TypeError] for an array field that is truthy and not
    iterable, or the exception [json.loads] or [json.dumps] raised on
    [raw]; no key is ever missing. *)
Theorem X4_full_row_errors (now1 now2 : string) (row : source_row)
    (e : exn) :
  length columns <= length row ->
  transform_record now1 now2 row columns = Raise e ->
  (exists msg, e = TypeError msg)
  \/ (exists s, json_loads s = Raise e)
  \/ (exists v, json_dumps v = Raise e).
Proof.
  intros Hlen. rewrite transform_record_unfold. unfold rmap, normalize.
  assert (forall k, k ∈ columns -> is_Some (dict_zip columns row !! k))
    as Hall.
  { intros k Hk. apply elem_of_dom. rewrite dom_dict_zip by done.
    by apply elem_of_list_to_set. }
  destruct (foldl normalize_array _ array_fields) as [d1|e'] eqn:H1; simpl.
  - destruct (decode_raw d1) as [d2|e''] eqn:H2; simpl; [done|].
    intros H; inversion H; subst e''.
    destruct (decode_raw_raise _ _ H2) as [[_ Hnone]|Hjson]; [|by right].
    rewrite (foldl_normalize_other _ _ _ "raw" raw_not_array_field H1)
      in Hnone.
    destruct (Hall "raw") as [v Hv]; [|by rewrite Hv in Hnone].
    unfold columns. apply list_elem_of_In. simpl. tauto.
  - intros H; inversion H; subst e'.
    destruct (foldl_normalize_raise_kind _ _ _ H1)
      as [(k & -> & Hk & Hnone)|Hty]; [|by left].
    destruct (Hall k) as [v Hv]; [|by rewrite Hv in Hnone].
    unfold array_fields in Hk. unfold columns.
    apply list_elem_of_In in Hk. apply list_elem_of_In.
    simpl in Hk |- *. tauto.
Qed.

(** X5: what [raw] becomes. A non-empty string is replaced by what
    [json.loads] returns for it, a non-empty dict by what [json.loads]
    returns for its [json.dumps] text, and a falsy value ([None], the
    empty string, the empty dict) is kept as it is. *)
Theorem X5_raw_decoded (now1 now2 : string) (row : source_row)
    (cols : list string) (raw : pyval) (rec : gmap string pyval) :
  dict_zip cols row !! "raw" = Some raw ->
  transform_record now1 now2 row cols = Ok rec ->
  (forall s, raw = VStr s -> s <> "" ->
     exists j, json_loads s = Ok j /\ rec !! "raw" = Some j)
  /\ (forall kvs, raw = VDict kvs -> kvs <> [] ->
        exists text j, json_dumps raw = Ok text /\ json_loads text = Ok j
                       /\ rec !! "raw" = Some j)
  /\ (truthy raw = false -> rec !! "raw" = Some raw).
Proof.
  intros Hraw. rewrite transform_record_unfold. unfold rmap, normalize.
  destruct (foldl normalize_array _ array_fields) as [d1|e] eqn:H1;
    simpl; [|done].
  destruct (decode_raw d1) as [d2|e] eqn:H2; simpl; [|done].
  intros H; inversion H; subst rec; clear H.
  assert ("raw" ∉ metadata_fields) as Hm.
  { unfold metadata_fields. intros H.
    repeat (apply elem_of_cons in H as [H|H]; [discriminate H|]).
    by apply elem_of_nil in H. }
  rewrite stamp_lookup_other by done.
  rewrite <- (foldl_normalize_other _ _ _ "raw" raw_not_array_field H1)
    in Hraw.
  unfold decode_raw, getitem in H2. rewrite Hraw in H2. simpl in H2.
  repeat split.
  - intros s -> Hs. simpl in H2.
    destruct (String.eqb_spec s ""); [done|]. simpl in H2.
    destruct (json_loads s) as [j|e]; simpl in H2; [|done].
    inversion H2. exists j. split; [done|]. apply lookup_insert_eq.
  - intros kvs -> Hk. destruct kvs as [|kv kvs]; [done|]. simpl in H2.
    destruct (json_dumps _) as [text|e]; simpl in H2; [|done].
    destruct (json_loads text) as [j|e] eqn:Hj; simpl in H2; [|done].
    inversion H2. exists text, j. split; [done|]. split; [done|].
    apply lookup_insert_eq.
  - intros Hf. rewrite Hf in H2. inversion H2; subst d2. exact Hraw.
Qed.

(** *** More on the sink and the loop *)

(** X6: when the multi-record call succeeds it is the only call made for
    the batch: every record of the batch counts as imported, and the
    error count and the samples are as before. *)
Theorem X6_batch_success_single_call (batch : list (gmap string pyval))
    (s : run) (st' : Store) :
  batch <> [] ->
  upsert (supabase s) (Many batch) "id" = (st', None) ->
  let s' := upsert_batch batch s in
  trace s' = trace s ++ [EvUpsert (Many batch) "id"]
  /\ imported s' = imported s + length batch
  /\ errors s' = errors s
  /\ error_samples s' = error_samples s
  /\ supabase s' = st'.
Proof.
  intros Hne Hup. destruct batch as [|r batch]; [done|].
  unfold upsert_batch, do_upsert. rewrite Hup. by cbn.
Qed.

(** The samples are at most five and never more than the errors. *)
Definition samples_ok (s : run) : Prop :=
  length (error_samples s) <= 5 /\ length (error_samples s) <= errors s.

Lemma count_error_ok (msg : string) (s : run) :
  samples_ok s -> samples_ok (count_error msg s).
Proof.
  intros [H5 He]. unfold samples_ok, count_error; simpl.
  destruct (Nat.ltb_spec (length (error_samples s)) 5);
    [rewrite length_app; simpl; lia|lia].
Qed.

Lemma transform_rows_ok (rows : list source_row)
    (batch : list (gmap string pyval)) (s : run) :
  samples_ok s -> samples_ok (snd (transform_rows rows batch s)).
Proof.
  revert batch s. induction rows as [|row rows IH]; intros batch s H;
    [done|].
  cbn [transform_rows].
  destruct (transform_record _ _ row columns); apply IH;
    [exact H|by apply count_error_ok].
Qed.

Lemma upsert_singles_ok (batch : list (gmap string pyval)) (s : run) :
  samples_ok s -> samples_ok (upsert_singles batch s).
Proof.
  revert s. induction batch as [|r batch IH]; intros s H; [done|].
  cbn [upsert_singles]. unfold do_upsert.
  destruct (upsert (supabase s) (One r) "id") as [st' [e2|]]; apply IH;
    [by apply count_error_ok|exact H].
Qed.

Lemma process_page_ok (rows : list source_row) (s : run) :
  samples_ok s -> samples_ok (process_page rows s).
Proof.
  intros H. unfold process_page.
  pose proof (transform_rows_ok rows [] s H) as H1.
  destruct (transform_rows rows [] s) as [batch s1]. simpl in H1.
  unfold upsert_batch. destruct batch as [|r batch]; [exact H1|].
  unfold do_upsert.
  destruct (upsert (supabase s1) (Many (r :: batch)) "id") as [st' [e|]].
  - unfold samples_ok. cbn [pbar_update error_samples errors].
    by apply (upsert_singles_ok (r :: batch)).
  - destruct H1 as [H5 He]. split; simpl; lia.
Qed.

Lemma import_loop_ok (fuel : nat) (cursor : list source_row) (s s' : run) :
  import_loop fuel cursor s = Some s' -> samples_ok s -> samples_ok s'.
Proof.
  revert cursor s. induction fuel as [|fuel IH]; intros cursor s H Hs;
    [done|].
  cbn [import_loop] in H. unfold fetchmany in H.
  destruct (take BATCH_SIZE cursor) as [|r rows].
  - inversion H. exact Hs.
  - eapply IH; [exact H|]. by apply process_page_ok.
Qed.

(** X7: at the end of every run at most five error samples are held, and
    never more samples than errors were counted. *)
Theorem X7_error_samples_bounded (fuel : nat) (args : Args)
    (environ : gmap string string) (reply : string) (store0 : Store)
    (e : exit) (s : run) :
  main fuel args environ reply store0 = Some (e, s) ->
  length (error_samples s) <= 5 /\ length (error_samples s) <= errors s.
Proof.
  intros Hmain.
  destruct (main_cases _ _ _ _ _ _ _ Hmain)
    as [(_ & H2 & H3 & _)
       |(s0 & cursor & s1 & (_ & H2 & H3 & _) & _ & Hloop
         & (_ & K2 & K3 & _))].
  - rewrite H3. simpl. lia.
  - rewrite K2, K3. apply (import_loop_ok _ _ _ _ Hloop).
    unfold samples_ok. rewrite H2, H3. simpl. lia.
Qed.

(** What the loop adds to the trace: fetches of at most [BATCH_SIZE]
    rows and write calls, keyed on [id], of one to [BATCH_SIZE] records. *)
Definition page_event (ev : event) : Prop :=
  match ev with
  | EvFetchMany n rows => n = BATCH_SIZE /\ length rows <= BATCH_SIZE
  | EvUpsert p k =>
      k = "id" /\ 1 <= length (records_of p) /\ length (records_of p) <= BATCH_SIZE
  | _ => False
  end.

Lemma transform_rows_length (rows : list source_row)
    (batch : list (gmap string pyval)) (s : run) :
  length (fst (transform_rows rows batch s)) <= length batch + length rows.
Proof.
  revert batch s. induction rows as [|row rows IH]; intros batch s;
    [simpl; lia|].
  cbn [transform_rows].
  destruct (transform_record _ _ row columns).
  - etrans; [apply IH|]. rewrite length_app. simpl. lia.
  - etrans; [apply IH|]. simpl. lia.
Qed.

Lemma single_events (batch : list (gmap string pyval)) :
  Forall page_event (map (fun r => EvUpsert (One r) "id") batch).
Proof.
  apply Forall_forall. intros ev Hev.
  apply list_elem_of_fmap in Hev as (r & -> & _).
  simpl. unfold BATCH_SIZE. repeat split; lia.
Qed.

Lemma process_page_events (rows : list source_row) (s : run) :
  length rows <= BATCH_SIZE ->
  exists new,
    trace (process_page rows s) = trace s ++ new /\ Forall page_event new.
Proof.
  intros Hlen. unfold process_page.
  pose proof (transform_rows_length rows [] s) as Hb.
  destruct (transform_rows_spec rows [] s)
    as (batch & s1 & Heq & Htr & _).
  rewrite Heq in *. simpl in Hb. simpl app.
  cbn [pbar_update trace].
  unfold upsert_batch. destruct batch as [|r batch].
  { exists []. by rewrite app_nil_r, Htr. }
  unfold do_upsert.
  destruct (upsert (supabase s1) (Many (r :: batch)) "id") as [st' [e|]].
  - match goal with |- context [upsert_singles _ ?s2] =>
      destruct (upsert_singles_spec (r :: batch) s2) as (Hs & _) end.
    rewrite Hs. cbn [log trace]. rewrite Htr, <- app_assoc.
    eexists. split; [reflexivity|].
    constructor; [|apply single_events].
    simpl. simpl in Hb. repeat split; lia.
  - cbn [add_imported log trace]. rewrite Htr.
    eexists. split; [reflexivity|].
    constructor; [|constructor].
    simpl. simpl in Hb. repeat split; lia.
Qed.

Lemma import_loop_events (fuel : nat) (cursor : list source_row)
    (s s' : run) :
  import_loop fuel cursor s = Some s' ->
  exists new, trace s' = trace s ++ new /\ Forall page_event new.
Proof.
  revert cursor s. induction fuel as [|fuel IH]; intros cursor s H; [done|].
  cbn [import_loop] in H. unfold fetchmany in H.
  assert (length (take BATCH_SIZE cursor) <= BATCH_SIZE) as Hlen
    by (rewrite length_take; lia).
  destruct (take BATCH_SIZE cursor) as [|r rows].
  - inversion H. cbn [log trace]. eexists. split; [reflexivity|].
    constructor; [|constructor]. simpl. split; [done|lia].
  - apply IH in H as (new & Htr & Hnew).
    match type of Htr with context [process_page ?rs ?s1] =>
      destruct (process_page_events rs s1 Hlen) as (new1 & Htr1 & Hnew1) end.
    rewrite Htr1 in Htr. cbn [log trace] in Htr.
    rewrite <- !app_assoc in Htr.
    eexists. split; [exact Htr|].
    constructor; [split; [done|exact Hlen]|].
    apply Forall_app. by split.
Qed.

Lemma page_event_fetches (new : list event) :
  Forall page_event new ->
  Forall (fun rows : list source_row => length rows <= BATCH_SIZE)
    (fetches new).
Proof.
  induction 1 as [|ev new Hev _ IH]; [constructor|].
  destruct ev; simpl in *; try done. constructor; [by destruct Hev|done].
Qed.

Lemma page_event_upserts (new : list event) :
  Forall page_event new ->
  Forall (fun w : payload * string =>
            snd w = "id" /\ 1 <= length (records_of (fst w))
            /\ length (records_of (fst w)) <= BATCH_SIZE)
    (upserts new).
Proof.
  induction 1 as [|ev new Hev _ IH]; [constructor|].
  destruct ev; simpl in *; try done. by constructor.
Qed.

(** X8: in every run each fetch returns at most [BATCH_SIZE] rows, and
    each write call is keyed on [id] and carries at least one and at most
    [BATCH_SIZE] records. *)
Theorem X8_pages_and_batches_bounded (fuel : nat) (args : Args)
    (environ : gmap string string) (reply : string) (store0 : Store)
    (e : exit) (s : run) :
  main fuel args environ reply store0 = Some (e, s) ->
  Forall (fun rows : list source_row => length rows <= BATCH_SIZE)
    (fetches (trace s))
  /\ Forall (fun w : payload * string =>
               snd w = "id" /\ 1 <= length (records_of (fst w))
               /\ length (records_of (fst w)) <= BATCH_SIZE)
       (upserts (trace s)).
Proof.
  intros Hmain.
  destruct (main_cases _ _ _ _ _ _ _ Hmain)
    as [(_ & _ & _ & _ & _ & H6 & H7)
       |(s0 & cursor & s1 & (_ & _ & _ & _ & _ & H6 & H7) & _ & Hloop
         & (_ & _ & _ & _ & _ & K6 & K7))].
  - rewrite H6, H7. split; constructor.
  - apply import_loop_events in Hloop as (new & Htr & Hnew).
    rewrite K6, K7, Htr, fetches_app, upserts_app, H6, H7. simpl.
    split; [by apply page_event_fetches|by apply page_event_upserts].
Qed.

(** *** More on [main] *)

Definition prompts (tr : list event) : list string :=
  flat_map (fun ev => match ev with
                      | EvInput prompt => [prompt]
                      | _ => []
                      end) tr.

Definition executed (tr : list event) : list query :=
  flat_map (fun ev => match ev with
                      | EvExecute q => [q]
                      | _ => []
                      end) tr.

Lemma prompts_app (a b : list event) :
  prompts (a ++ b) = prompts a ++ prompts b.
Proof. apply flat_map_app. Qed.

(** X9: when [SUPABASE_URL] or [SUPABASE_SERVICE_KEY] is unset or empty
    the script prints its banner and the error and exits with status 1,
    before any statement is sent to DuckDB or to the store. *)
Theorem X9_missing_credentials_exit (fuel : nat) (args : Args)
    (environ : gmap string string) (reply : string) (store0 : Store) :
  environ !! "SUPABASE_URL" = None \/ environ !! "SUPABASE_URL" = Some ""
  \/ environ !! "SUPABASE_SERVICE_KEY" = None
  \/ environ !! "SUPABASE_SERVICE_KEY" = Some "" ->
  exists s,
    main fuel args environ reply store0 = Some (SysExit 1, s)
    /\ trace s
       = map EvPrint
           [ rule60; "Overture Maps US POI Importer";
             "Version: " +:+ OVERTURE_VERSION; rule60;
             nl +:+ "Setting up connections...";
             "Error: SUPABASE_URL and SUPABASE_SERVICE_KEY "
             +:+ "environment variables required" ]
    /\ supabase s = store0.
Proof.
  intros Henv.
  assert (get_supabase_client environ = None) as Hnone.
  { unfold get_supabase_client.
    destruct (environ !! "SUPABASE_URL") as [url|];
      destruct (environ !! "SUPABASE_SERVICE_KEY") as [key|];
      try done;
      destruct Henv as [H|[H|[H|H]]]; try discriminate H;
      inversion H; subst; try done.
    by rewrite orb_true_r. }
  unfold main. rewrite Hnone. eexists. split; [reflexivity|]. by split.
Qed.

(** The run goes on to the query: the credentials are set, it is no dry
    run, and the confirmation is not asked for or is given. *)
Definition proceeds (args : Args) (environ : gmap string string)
    (reply : string) : Prop :=
  is_Some (get_supabase_client environ)
  /\ dry_run args = false
  /\ ((10000 <? cap_total (limit args)
                  (db_count (where_clauses (category args) (state args))))%Z
      && negb (yes args) = false
      \/ String.eqb (lower reply) "y" = true).

Lemma main_proceeds (fuel : nat) (args : Args)
    (environ : gmap string string) (reply : string) (store0 : Store) :
  proceeds args environ reply ->
  exists s0,
    quiet (init_run store0) s0
    /\ main fuel args environ reply store0 = import_all fuel args s0.
Proof.
  intros ([client Hclient] & Hdry & Hgo).
  unfold main, print, setup_duckdb, count_records.
  rewrite Hclient, Hdry.
  destruct (str_given (category args)), (str_given (state args));
    (destruct ((10000 <? _)%Z && negb (yes args)) eqn:Hask;
     [destruct Hgo as [Hgo|Hgo]; [done|]; rewrite Hgo|];
     eexists; (split; [|reflexivity]); quiet_steps).
Qed.

(** The loop ends on a fetch that returns nothing. *)
Lemma import_loop_last_fetch (fuel : nat) (cursor : list source_row)
    (s s' : run) :
  import_loop fuel cursor s = Some s' ->
  last (fetches (trace s')) = Some [].
Proof.
  revert cursor s. induction fuel as [|fuel IH]; intros cursor s H; [done|].
  cbn [import_loop] in H. unfold fetchmany in H.
  destruct (take BATCH_SIZE cursor) as [|r rows]; [|by eapply IH].
  inversion H. cbn [log trace]. rewrite fetches_app. simpl.
  apply last_snoc.
Qed.

(** A capped query that DuckDB accepts selects the first [N] matching
    rows. *)
Lemma execute_capped (args : Args) (N : Z) :
  limit args = Some N ->
  (1 <= N < 2 ^ 63)%Z ->
  execute (build_query (limit args) (category args) (state args))
  = Ok (take (Z.to_nat N) (matching args)).
Proof.
  intros Hlimit [H1 H63]. unfold execute, build_query, matching. simpl.
  rewrite Hlimit. simpl.
  destruct (Z.eqb_spec N 0) as [->|_]; [lia|].
  destruct (Z.ltb_spec N 0); [lia|].
  destruct (Z.leb_spec (2 ^ 63) N); [lia|done].
Qed.

(** C7 (amended): with a cap [N], [1 <= N < 2^63], and more than [N]
    matching rows, a run that goes on to the query returns having pulled
    exactly the first [N] matching rows, in fetches of at most
    [BATCH_SIZE] rows, [ceil(N / BATCH_SIZE) + 1] fetches in all, of which
    the last returns nothing and ends the loop; a run that does not go on
    to the query ends without a fetch. *)
Theorem C7_cap_bounds_rows_pulled (fuel : nat) (args : Args)
    (environ : gmap string string) (reply : string) (store0 : Store)
    (N : Z) :
  limit args = Some N ->
  (1 <= N < 2 ^ 63)%Z ->
  Z.to_nat N < length (matching args) ->
  Z.to_nat N < fuel ->
  (proceeds args environ reply ->
   exists s,
     main fuel args environ reply store0 = Some (Returned, s)
     /\ pulled_rows (trace s) = take (Z.to_nat N) (matching args)
     /\ rows_pulled (trace s) = Z.to_nat N
     /\ page_pulls (trace s) = pulls_for (Z.to_nat N)
     /\ Forall (fun rows : list source_row => length rows <= BATCH_SIZE)
          (fetches (trace s))
     /\ last (fetches (trace s)) = Some [])
  /\ (~ proceeds args environ reply ->
      exists e s,
        main fuel args environ reply store0 = Some (e, s)
        /\ page_pulls (trace s) = 0
        /\ rows_pulled (trace s) = 0).
Proof.
  intros Hlimit HN Hmore Hfuel. split.
  - intros Hgo.
    pose proof (execute_capped args N Hlimit HN) as Hex.
    set (cursor := take (Z.to_nat N) (matching args)) in *.
    assert (length cursor = Z.to_nat N) as Hlen
      by (unfold cursor; rewrite length_take; lia).
    destruct (main_proceeds fuel args environ reply store0 Hgo)
      as (s0 & (_ & _ & _ & _ & _ & H6 & _) & ->).
    unfold import_all. rewrite Hex.
    match goal with |- context [import_loop fuel cursor ?s1] =>
      destruct (import_loop_terminates fuel cursor s1) as [s' Hloop];
        [lia|] end.
    rewrite Hloop. eexists. split; [reflexivity|].
    pose proof (import_loop_last_fetch _ _ _ _ Hloop) as Hlast.
    pose proof (import_loop_events _ _ _ _ Hloop) as (new & Htr & Hnew).
    apply import_loop_spec in Hloop as (_ & _ & Hrows & Hpp & _).
    destruct (report_quiet s' s' (quiet_refl s'))
      as (_ & _ & _ & _ & _ & R6 & _).
    unfold rows_pulled, pulled_rows, page_pulls in *. rewrite R6.
    cbn [print log trace] in Hrows, Hpp, Htr.
    rewrite !fetches_app in Hrows, Hpp. simpl in Hrows, Hpp.
    rewrite !app_nil_r, H6 in Hrows, Hpp. simpl in Hrows, Hpp.
    rewrite Hlen in Hpp.
    split; [done|]. split; [by rewrite Hrows|]. split; [done|].
    split; [|done].
    rewrite Htr, !fetches_app, H6. simpl.
    by apply page_event_fetches.
  - intros Hnot. unfold main, print, setup_duckdb, count_records.
    destruct (get_supabase_client environ) as [client|] eqn:Hclient;
      [|eexists _, _; split; [reflexivity|]; split; reflexivity].
    destruct (dry_run args) eqn:Hdry.
    { destruct (str_given (category args)), (str_given (state args));
        (eexists _, _; split; [reflexivity|]; split; reflexivity). }
    destruct ((10000 <? _)%Z && negb (yes args)) eqn:Hask.
    + destruct (String.eqb (lower reply) "y") eqn:Hreply.
      * exfalso. apply Hnot. split; [by eexists|]. split; [done|].
        by right.
      * destruct (str_given (category args)), (str_given (state args));
          (eexists _, _; split; [reflexivity|]; split; reflexivity).
    + exfalso. apply Hnot. split; [by eexists|]. split; [done|].
      by left.
Qed.

(** X10: a run that goes on to the query, when DuckDB accepts the query
    (no cap, or a cap from 1 to [2^63 - 1]), pulls every row of the query
    result exactly once and in the order of the result, in full pages
    followed by the rest, and returns; without a cap these are all the
    matching rows. *)
Theorem X10_rows_pulled_in_order (fuel : nat) (args : Args)
    (environ : gmap string string) (reply : string) (store0 : Store)
    (cursor : list source_row) :
  proceeds args environ reply ->
  execute (build_query (limit args) (category args) (state args))
  = Ok cursor ->
  length cursor < fuel ->
  exists s,
    main fuel args environ reply store0 = Some (Returned, s)
    /\ pulled_rows (trace s) = cursor
    /\ page_pulls (trace s) = pulls_for (length cursor)
    /\ (int_given (limit args) = None -> cursor = matching args).
Proof.
  intros Hgo Hex Hfuel.
  destruct (main_proceeds fuel args environ reply store0 Hgo)
    as (s0 & (_ & _ & _ & _ & _ & H6 & _) & ->).
  unfold import_all. rewrite Hex.
  match goal with |- context [import_loop fuel cursor ?s1] =>
    destruct (import_loop_terminates fuel cursor s1 Hfuel) as [s' Hloop] end.
  rewrite Hloop. eexists. split; [reflexivity|].
  apply import_loop_spec in Hloop as (_ & _ & Hrows & Hpp & _).
  destruct (report_quiet s' s' (quiet_refl s'))
    as (_ & _ & _ & _ & _ & R6 & _).
  unfold pulled_rows, page_pulls in *. rewrite R6.
  cbn [print log trace] in Hrows, Hpp.
  rewrite !fetches_app in Hrows, Hpp. simpl in Hrows, Hpp.
  rewrite !app_nil_r, H6 in Hrows, Hpp. simpl in Hrows, Hpp.
  split; [done|]. split; [done|].
  intros Hnone. apply execute_rows in Hex. simpl in Hex.
  by rewrite Hnone in Hex.
Qed.

(** X11: when the confirmation is asked for (more than 10,000 records and
    no [--yes]) and the reply is not accepted, the run prints
    [Aborted.] and returns: no query is executed, no row fetched, no
    write call made. *)
Theorem X11_declined_import_writes_nothing (fuel : nat) (args : Args)
    (environ : gmap string string) (reply : string) (store0 : Store) :
  is_Some (get_supabase_client environ) ->
  dry_run args = false ->
  yes args = false ->
  (10000 < cap_total (limit args)
             (db_count (where_clauses (category args) (state args))))%Z ->
  String.eqb (lower reply) "y" = false ->
  exists s,
    main fuel args environ reply store0 = Some (Returned, s)
    /\ prompts (trace s)
       = [ nl +:+ "This will upsert "
           +:+ format_thousands
                 (cap_total (limit args)
                    (db_count (where_clauses (category args) (state args))))
           +:+ " records. Continue? [y/N] " ]
    /\ last (trace s) = Some (EvPrint "Aborted.")
    /\ executed (trace s) = []
    /\ page_pulls (trace s) = 0
    /\ write_calls (trace s) = 0
    /\ supabase s = store0.
Proof.
  intros [client Hclient] Hdry Hyes Hbig Hreply.
  unfold main, print, setup_duckdb, count_records.
  rewrite Hclient, Hdry, Hyes, Hreply.
  apply Z.ltb_lt in Hbig. rewrite Hbig. cbn [negb andb].
  set (txt := format_thousands _).
  destruct (str_given (category args)), (str_given (state args));
    (eexists; split; [reflexivity|]);
    cbn [log trace init_run supabase app];
    repeat split; reflexivity.
Qed.

Lemma prompts_log (ev : event) (s : run) :
  prompts (trace (log ev s)) = prompts (trace s) ++ prompts [ev].
Proof. cbn [log trace]. apply prompts_app. Qed.

Lemma foldl_print_prompts (s : run) (texts : list string) :
  prompts
    (trace (foldl (fun s err => log (EvPrint ("  - " +:+ err)) s) s texts))
  = prompts (trace s).
Proof.
  revert s. induction texts as [|t texts IH]; intros s; simpl; [done|].
  rewrite IH, prompts_log. simpl. by rewrite app_nil_r.
Qed.

Lemma report_prompts (s : run) :
  prompts (trace (report s)) = prompts (trace s).
Proof.
  unfold report, print.
  destruct (error_samples _);
    repeat (rewrite ?prompts_log, ?prompts_app, ?foldl_print_prompts; simpl;
            rewrite ?app_nil_r);
    reflexivity.
Qed.

Lemma page_event_prompts (new : list event) :
  Forall page_event new -> prompts new = [].
Proof.
  induction 1 as [|ev new Hev _ IH]; [done|].
  destruct ev; simpl in *; done.
Qed.

Lemma import_all_prompts (fuel : nat) (args : Args) (s0 : run)
    (e : exit) (s : run) :
  import_all fuel args s0 = Some (e, s) ->
  prompts (trace s) = prompts (trace s0).
Proof.
  unfold import_all, print.
  destruct (execute _) as [cursor|ex].
  - destruct (import_loop fuel cursor _) as [s1|] eqn:Hloop; [|done].
    intros H; inversion H; subst.
    apply import_loop_events in Hloop as (new & Htr & Hnew).
    rewrite report_prompts, Htr. cbn [log trace].
    rewrite !prompts_app, (page_event_prompts _ Hnew). simpl.
    by rewrite !app_nil_r.
  - intros H; inversion H; subst. cbn [log trace].
    rewrite !prompts_app. simpl. by rewrite !app_nil_r.
Qed.

(** X12: with [--yes], with [--dry-run], or when at most 10,000 records
    are to be imported, the run never asks the user anything. *)
Theorem X12_no_prompt (fuel : nat) (args : Args)
    (environ : gmap string string) (reply : string) (store0 : Store)
    (e : exit) (s : run) :
  yes args = true \/ dry_run args = true
  \/ (cap_total (limit args)
        (db_count (where_clauses (category args) (state args)))
      <= 10000)%Z ->
  main fuel args environ reply store0 = Some (e, s) ->
  prompts (trace s) = [].
Proof.
  intros Hquiet. unfold main, print, setup_duckdb, count_records.
  destruct (get_supabase_client environ);
    [|intros H; inversion H; reflexivity].
  set (txt := format_thousands _).
  destruct (dry_run args) eqn:Hdry.
  { destruct (str_given (category args)), (str_given (state args));
      intros H; inversion H; reflexivity. }
  assert ((10000 <? cap_total (limit args)
                      (db_count (where_clauses (category args)
                                   (state args))))%Z
          && negb (yes args) = false) as ->.
  { destruct Hquiet as [->|[Hd|Hle]]; [apply andb_false_r|done|].
    apply Z.ltb_ge in Hle. by rewrite Hle. }
  destruct (str_given (category args)), (str_given (state args));
    intros H; apply import_all_prompts in H; rewrite H; reflexivity.
Qed.

Lemma lower_ascii_y (c : Ascii.ascii) :
  String (lower_ascii c) "" = "y" ->
  String c "" = "y" \/ String c "" = "Y".
Proof.
  destruct c as [[] [] [] [] [] [] [] []]; vm_compute; intros H;
    try discriminate H; auto.
Qed.

(** X13: the reply that confirms is [y] or [Y] and nothing else: not
    [yes], not a reply with a space or a newline around the letter. *)
Theorem X13_confirmation_accepts_only_y (reply : string) :
  String.eqb (lower reply) "y" = true <-> reply = "y" \/ reply = "Y".
Proof.
  rewrite String.eqb_eq. split.
  - destruct reply as [|c [|c' r]]; simpl; intros H; try discriminate H.
    by apply lower_ascii_y.
  - by intros [->| ->].
Qed.

(** X14: [--limit 0] is no cap: a run with it that goes on to the query
    pulls every matching row, as the run without [--limit] does. *)
Theorem X14_limit_zero_pulls_everything (fuel : nat) (args : Args)
    (environ : gmap string string) (reply : string) (store0 : Store) :
  limit args = Some 0%Z ->
  proceeds args environ reply ->
  length (matching args) < fuel ->
  exists s,
    main fuel args environ reply store0 = Some (Returned, s)
    /\ pulled_rows (trace s) = matching args
    /\ rows_pulled (trace s) = length (matching args).
Proof.
  intros Hzero Hgo Hfuel.
  assert (execute (build_query (limit args) (category args) (state args))
          = Ok (matching args)) as Hex by (by rewrite Hzero).
  destruct (main_proceeds fuel args environ reply store0 Hgo)
    as (s0 & (_ & _ & _ & _ & _ & H6 & _) & ->).
  unfold import_all. rewrite Hex.
  match goal with |- context [import_loop fuel _ ?s1] =>
    destruct (import_loop_terminates fuel (matching args) s1 Hfuel)
      as [s' Hloop] end.
  rewrite Hloop. eexists. split; [reflexivity|].
  apply import_loop_spec in Hloop as (_ & _ & Hrows & _).
  destruct (report_quiet s' s' (quiet_refl s'))
    as (_ & _ & _ & _ & _ & R6 & _).
  unfold rows_pulled, pulled_rows in *. rewrite R6.
  cbn [print log trace] in Hrows.
  rewrite !fetches_app in Hrows. simpl in Hrows.
  rewrite !app_nil_r, H6 in Hrows. simpl in Hrows.
  by rewrite Hrows.
Qed.

End Importer.

(** *** A concrete world *)

(** A small instance of the collaborators, on which the theorems above are
    run: a [json] that knows the empty object, a clock that counts, a
    table that rejects a record without identifier, and a source of four
    rows of which the second is cut short. *)

Definition json_loads_ex (s : string) : result pyval :=
  if String.eqb s "{}" then Ok (VDict [])
  else Raise (OtherError "Expecting value").

Definition json_dumps_ex (v : pyval) : result string := Ok "{}".

Definition py_repr_ex (v : pyval) : string :=
  match v with
  | VNone => "None"
  | VInt z => pretty z
  | _ => "<object>"
  end.

Definition utcnow_ex (k : nat) : string := "2025-12-01T00:00:00." +:+ pretty k.

Definition has_id (record : gmap string pyval) : bool :=
  match record !! "id" with
  | Some VNone | None => false
  | Some _ => true
  end.

Definition upsert_ex (table : list (gmap string pyval)) (p : payload)
    (on_conflict : string)
  : list (gmap string pyval) * option exn :=
  let records := match p with Many batch => batch | One record => [record] end in
  if forallb has_id records then (table ++ records, None)
  else (table, Some (OtherError "null value in column id")).

Definition place (id : pyval) (websites : pyval) : source_row :=
  [ id; VStr "Cafe"; VFloat 4607182418800017408; VStr "cafe"; VNone;
    VNone; VStr "open"; websites; VList [VStr "a"; VStr "b"]; VNone; VNone;
    VStr "1 Main St"; VStr "Springfield"; VStr "CA"; VStr "90000";
    VStr "US"; VFloat 0; VFloat 0; VStr "{}" ].

Definition db_count_ex (w : list string) : Z := 4.

Definition db_select_ex (w : list string) : list source_row :=
  [ place (VStr "p1") VNone; [VStr "p2"]; place VNone (VList []);
    place (VStr "p4") (VList [VStr "https://example.org"]) ].

Definition environ_ex : gmap string string :=
  <["SUPABASE_URL" := "https://db.example"]>
    (<["SUPABASE_SERVICE_KEY" := "secret"]> ∅).

Definition args_ex (limit : option Z) (dry_run : bool) : Args :=
  {| limit := limit; category := None; state := Some "CA";
     dry_run := dry_run; yes := true |}.

Definition transform_ex (row : source_row) : result (gmap string pyval) :=
  transform_record json_loads_ex json_dumps_ex "t1" "t2" row columns.

Definition main_ex (fuel : nat) (args : Args)
  : option (exit * run (Store := list (gmap string pyval))) :=
  main json_loads_ex json_dumps_ex py_repr_ex utcnow_ex upsert_ex
    db_count_ex db_select_ex fuel args environ_ex "" [].

(** The observations of a run that the examples compare. *)
Definition summary (r : option (exit * run (Store := list (gmap string pyval))))
  : option (exit * nat * nat * nat * nat * nat) :=
  match r with
  | Some (e, s) =>
      Some (e, imported s, errors s, rows_pulled (trace s),
            page_pulls (trace s), write_calls (trace s))
  | None => None
  end.

(** The run over the four rows: the short row is a transform error, the
    batch of three is refused for the record without identifier, and the
    fallback writes two records and counts one more error. *)
Example main_ex_summary :
  summary (main_ex 5 (args_ex None false)) = Some (Returned, 2, 2, 4, 2, 4).
Proof. vm_compute. reflexivity. Qed.

Example main_ex_error_samples :
  option_map (fun es => error_samples (snd es)) (main_ex 5 (args_ex None false))
  = Some [ "Transform error: 'alternate_categories'";
           "Insert error for None: null value in column id" ].
Proof. vm_compute. reflexivity. Qed.

(** A cap that does not fit 64 bits: the query is refused and the run
    ends on the uncaught exception, nothing pulled. *)
Example main_ex_limit_out_of_range :
  summary (main_ex 5 (args_ex (Some (2 ^ 63)%Z) false))
  = Some (Uncaught
            (OtherError "Conversion Error: LIMIT is out of range for INT64"),
          0, 0, 0, 0, 0).
Proof. vm_compute. reflexivity. Qed.

Definition record_of (r : result (gmap string pyval)) : gmap string pyval :=
  match r with
  | Ok rec => rec
  | Raise _ => ∅
  end.

Definition final (r : option (exit * run (Store := list (gmap string pyval))))
  : run (Store := list (gmap string pyval)) :=
  match r with
  | Some (_, s) => s
  | None => init_run []
  end.

Definition returned
    (r : option (exit * run (Store := list (gmap string pyval)))) : bool :=
  match r with
  | Some (Returned, _) => true
  | _ => false
  end.

Lemma record_of_ok (r : result (gmap string pyval)) :
  is_ok r = true -> r = Ok (record_of r).
Proof. by destruct r. Qed.

Lemma final_returned
    (r : option (exit * run (Store := list (gmap string pyval)))) :
  returned r = true -> r = Some (Returned, final r).
Proof. by destruct r as [[[] ?]|]. Qed.

Definition rec_p1 : gmap string pyval :=
  record_of (transform_ex (place (VStr "p1") VNone)).

Definition rec_no_id : gmap string pyval :=
  record_of (transform_ex (place VNone VNone)).

(** C1, the claim as stated, fails: a row whose [id] is [None] is
    transformed, to a record whose [id] is [None]; and the one row whose
    mapping has no [id] key, the empty row, raises a [KeyError] that names
    [alternate_categories]. *)
Lemma C1_counterexample :
  transform_ex (place VNone VNone) = Ok rec_no_id
  /\ rec_no_id !! "id" = Some VNone
  /\ transform_ex [] = Raise (KeyError "alternate_categories").
Proof.
  split; [apply record_of_ok|split]; vm_compute; reflexivity.
Qed.

Lemma C1_witness :
  transform_ex (<[0 := VNone]> (place (VStr "p1") VNone))
  = Ok (<["id" := VNone]> rec_p1).
Proof.
  unfold transform_ex.
  apply C1_none_column_never_fails;
    [reflexivity | simpl; lia | apply record_of_ok; vm_compute; reflexivity].
Defined.

(** C2, the claim as stated, fails: the row with no [websites] and the row
    with an empty [websites] give the same record, [websites] being [None]
    in it. *)
Lemma C2_counterexample :
  transform_ex (place (VStr "p1") VNone)
  = transform_ex (place (VStr "p1") (VList []))
  /\ is_ok (transform_ex (place (VStr "p1") (VList []))) = true
  /\ rmap (fun rec => rec !! "websites")
        (transform_ex (place (VStr "p1") (VList [])))
     = Ok (Some VNone).
Proof. repeat split; vm_compute; reflexivity. Qed.

Definition rec_empty : gmap string pyval :=
  record_of (transform_ex (place (VStr "p1") (VList []))).

Lemma C2_witness :
  (VList [] = VNone \/ VList [] = VList [] ->
   rec_empty !! "websites" = Some VNone)
  /\ (forall l, VList [] = VList l -> l <> [] ->
      rec_empty !! "websites" = Some (VList l)).
Proof.
  apply (C2_array_field_normalized json_loads_ex json_dumps_ex "t1" "t2"
           (place (VStr "p1") (VList [])) columns "websites");
    [ unfold array_fields; apply list_elem_of_In; simpl; tauto
    | vm_compute; reflexivity
    | apply record_of_ok; vm_compute; reflexivity ].
Defined.

Lemma C3_witness :
  exists e s,
    main_ex 5 (args_ex None false) = Some (e, s)
    /\ imported s + errors s = rows_pulled (trace s)
    /\ pbar s = rows_pulled (trace s).
Proof.
  unfold main_ex.
  apply C3_imported_plus_errors_is_rows_pulled. vm_compute. lia.
Defined.

Lemma C4_witness :
  let batch := [rec_p1; rec_no_id; rec_p1] in
  let s := init_run [] in
  let outs := single_outcomes upsert_ex [] batch in
  let s' := upsert_batch py_repr_ex upsert_ex batch s in
  map fst outs = batch
  /\ trace s' = trace s ++ EvUpsert (Many batch) "id"
                  :: map (fun r => EvUpsert (One r) "id") batch
  /\ imported s' = imported s + successes outs
  /\ errors s' = errors s + failures outs
  /\ successes outs + failures outs = length batch
  /\ error_samples s'
     = error_samples s
       ++ take (5 - length (error_samples s))
            (failure_texts py_repr_ex outs)
  /\ (length (error_samples s) <= 5 -> length (error_samples s') <= 5).
Proof.
  apply (C4_fallback_isolates_failures py_repr_ex upsert_ex
           [rec_p1; rec_no_id; rec_p1] (init_run []) []
           (OtherError "null value in column id"));
    [discriminate | vm_compute; reflexivity].
Defined.


(** C7, the claim as stated, fails: a cap of 0 cuts nothing, all four
    matching rows are pulled; and with a cap of 1 the loop, having pulled
    its one row, still fetches once more, to find the cursor empty. *)
Lemma C7_counterexample :
  rows_pulled (trace (final (main_ex 5 (args_ex (Some 0%Z) false)))) = 4
  /\ fetches (trace (final (main_ex 5 (args_ex (Some 1%Z) false))))
     = [[place (VStr "p1") VNone]; []].
Proof. split; vm_compute; reflexivity. Qed.

Lemma C7_witness :
  exists s,
    main_ex 5 (args_ex (Some 1%Z) false) = Some (Returned, s)
    /\ pulled_rows (trace s)
       = take (Z.to_nat 1) (matching db_select_ex (args_ex (Some 1%Z) false))
    /\ rows_pulled (trace s) = Z.to_nat 1
    /\ page_pulls (trace s) = pulls_for (Z.to_nat 1)
    /\ Forall (fun rows : list (list pyval) => length rows <= BATCH_SIZE)
         (fetches (trace s))
    /\ last (fetches (trace s)) = Some [].
Proof.
  apply (proj1 (C7_cap_bounds_rows_pulled json_loads_ex json_dumps_ex
                  py_repr_ex utcnow_ex upsert_ex db_count_ex db_select_ex 5
                  (args_ex (Some 1%Z) false) environ_ex "" [] 1%Z
                  ltac:(reflexivity) ltac:(split; [lia|reflexivity])
                  ltac:(vm_compute; lia) ltac:(vm_compute; lia))).
  split; [eexists; vm_compute; reflexivity|].
  split; [reflexivity|left; vm_compute; reflexivity].
Defined.

Lemma C9_witness :
  let s := final (main_ex 5 (args_ex None false)) in
  Forall (keeps_id (pulled_rows (trace s))) (upserts (trace s)).
Proof.
  apply (proj2 (C9_id_preserved_end_to_end json_loads_ex json_dumps_ex
                  py_repr_ex utcnow_ex upsert_ex db_count_ex db_select_ex)
           5 (args_ex None false) environ_ex "" [] Returned).
  apply final_returned. vm_compute. reflexivity.
Defined.

Lemma C10_witness :
  let rows := [[VStr "p2"]; []] in
  let s := init_run (Store := list (gmap string pyval)) [] in
  let s' := process_page json_loads_ex json_dumps_ex py_repr_ex utcnow_ex
              upsert_ex rows s in
  trace s' = trace s /\ supabase s' = supabase s
  /\ write_calls (trace s') = write_calls (trace s).
Proof.
  apply C10_no_write_for_empty_batch.
  repeat constructor.
Defined.

(** *** The further properties, on the concrete world *)

Lemma pair_none {A} (r : A * option exn) :
  snd r = None -> r = (fst r, None).
Proof. destruct r as [a o]. simpl. by intros ->. Qed.

Lemma X1_witness :
  rec_p1 !! "name" = place (VStr "p1") VNone !! 1.
Proof.
  apply (X1_scalar_columns_copied json_loads_ex json_dumps_ex "t1" "t2");
    [ reflexivity
    | unfold array_fields; intros H; apply list_elem_of_In in H; simpl in H;
      intuition discriminate
    | discriminate
    | apply record_of_ok; vm_compute; reflexivity ].
Defined.

Lemma X2_witness :
  dom rec_p1 = list_to_set (columns ++ metadata_fields).
Proof.
  apply (X2_record_keys json_loads_ex json_dumps_ex "t1" "t2"
           (place (VStr "p1") VNone)).
  apply record_of_ok. vm_compute. reflexivity.
Defined.

Lemma X3_witness :
  exists e,
    transform_record json_loads_ex json_dumps_ex "t1" "t2" [VStr "p2"] columns
    = Raise e
    /\ ((exists k, e = KeyError k
                   /\ (k ∈ array_fields \/ k = "raw")
                   /\ dict_zip columns [VStr "p2"] !! k = None)
        \/ (exists msg, e = TypeError msg)).
Proof.
  apply X3_short_row_raises. vm_compute. lia.
Defined.

Lemma X4_witness :
  (exists msg, TypeError "'int' object is not iterable" = TypeError msg)
  \/ (exists s,
        json_loads_ex s = Raise (TypeError "'int' object is not iterable"))
  \/ (exists v,
        json_dumps_ex v = Raise (TypeError "'int' object is not iterable")).
Proof.
  apply (X4_full_row_errors json_loads_ex json_dumps_ex "t1" "t2"
           (place (VStr "p1") (VInt 5)));
    [vm_compute; lia | vm_compute; reflexivity].
Defined.

Lemma X5_witness :
  (forall s, VStr "{}" = VStr s -> s <> "" ->
     exists j, json_loads_ex s = Ok j /\ rec_p1 !! "raw" = Some j)
  /\ (forall kvs, VStr "{}" = VDict kvs -> kvs <> [] ->
        exists text j,
          json_dumps_ex (VStr "{}") = Ok text /\ json_loads_ex text = Ok j
          /\ rec_p1 !! "raw" = Some j)
  /\ (truthy (VStr "{}") = false -> rec_p1 !! "raw" = Some (VStr "{}")).
Proof.
  apply (X5_raw_decoded json_loads_ex json_dumps_ex "t1" "t2"
           (place (VStr "p1") VNone) columns);
    [ vm_compute; reflexivity
    | apply record_of_ok; vm_compute; reflexivity ].
Defined.

Lemma X6_witness :
  let batch := [rec_p1] in
  let s := init_run (Store := list (gmap string pyval)) [] in
  let s' := upsert_batch py_repr_ex upsert_ex batch s in
  trace s' = trace s ++ [EvUpsert (Many batch) "id"]
  /\ imported s' = imported s + length batch
  /\ errors s' = errors s
  /\ error_samples s' = error_samples s
  /\ supabase s' = fst (upsert_ex [] (Many batch) "id").
Proof.
  apply (X6_batch_success_single_call py_repr_ex upsert_ex [rec_p1]
           (init_run []));
    [discriminate | apply pair_none; vm_compute; reflexivity].
Defined.

Lemma X7_witness :
  let s := final (main_ex 5 (args_ex None false)) in
  length (error_samples s) <= 5 /\ length (error_samples s) <= errors s.
Proof.
  apply (X7_error_samples_bounded json_loads_ex json_dumps_ex py_repr_ex
           utcnow_ex upsert_ex db_count_ex db_select_ex 5
           (args_ex None false) environ_ex "" [] Returned).
  apply final_returned. vm_compute. reflexivity.
Defined.

Lemma X8_witness :
  let s := final (main_ex 5 (args_ex None false)) in
  Forall (fun rows : list (list pyval) => length rows <= BATCH_SIZE)
    (fetches (trace s))
  /\ Forall (fun w : payload * string =>
               snd w = "id" /\ 1 <= length (records_of (fst w))
               /\ length (records_of (fst w)) <= BATCH_SIZE)
       (upserts (trace s)).
Proof.
  apply (X8_pages_and_batches_bounded json_loads_ex json_dumps_ex py_repr_ex
           utcnow_ex upsert_ex db_count_ex db_select_ex 5
           (args_ex None false) environ_ex "" [] Returned).
  apply final_returned. vm_compute. reflexivity.
Defined.

Lemma X9_witness :
  exists s,
    main json_loads_ex json_dumps_ex py_repr_ex utcnow_ex upsert_ex
      db_count_ex db_select_ex 5 (args_ex None false)
      (<["SUPABASE_URL" := "https://db.example"]> ∅) "" []
    = Some (SysExit 1, s)
    /\ trace s
       = map EvPrint
           [ rule60; "Overture Maps US POI Importer";
             "Version: " +:+ OVERTURE_VERSION; rule60;
             nl +:+ "Setting up connections...";
             "Error: SUPABASE_URL and SUPABASE_SERVICE_KEY "
             +:+ "environment variables required" ]
    /\ supabase s = [].
Proof.
  apply X9_missing_credentials_exit.
  right. right. left. reflexivity.
Defined.

Lemma X10_witness :
  exists s,
    main_ex 5 (args_ex None false) = Some (Returned, s)
    /\ pulled_rows (trace s) = db_select_ex (where_clauses None (Some "CA"))
    /\ page_pulls (trace s)
       = pulls_for (length (db_select_ex (where_clauses None (Some "CA"))))
    /\ (int_given None = None ->
        db_select_ex (where_clauses None (Some "CA"))
        = matching db_select_ex (args_ex None false)).
Proof.
  apply (X10_rows_pulled_in_order json_loads_ex json_dumps_ex py_repr_ex
           utcnow_ex upsert_ex db_count_ex db_select_ex 5
           (args_ex None false) environ_ex "" []
           (db_select_ex (where_clauses None (Some "CA"))));
    [ split; [eexists; vm_compute; reflexivity|];
      split; [reflexivity|left; vm_compute; reflexivity]
    | reflexivity
    | vm_compute; lia ].
Defined.

(** A source that counts fifty thousand rows, to be asked about. *)
Definition db_count_big (w : list string) : Z := 50000.

Definition args_ask : Args :=
  {| limit := None; category := Some "cafe"; state := None;
     dry_run := false; yes := false |}.

Lemma X11_witness :
  exists s,
    main json_loads_ex json_dumps_ex py_repr_ex utcnow_ex upsert_ex
      db_count_big db_select_ex 5 args_ask environ_ex "yes" []
    = Some (Returned, s)
    /\ prompts (trace s)
       = [ nl +:+ "This will upsert "
           +:+ format_thousands
                 (cap_total None
                    (db_count_big (where_clauses (Some "cafe") None)))
           +:+ " records. Continue? [y/N] " ]
    /\ last (trace s) = Some (EvPrint "Aborted.")
    /\ executed (trace s) = []
    /\ page_pulls (trace s) = 0
    /\ write_calls (trace s) = 0
    /\ supabase s = [].
Proof.
  apply (X11_declined_import_writes_nothing json_loads_ex json_dumps_ex
           py_repr_ex utcnow_ex upsert_ex db_count_big db_select_ex 5
           args_ask environ_ex "yes" []);
    [ eexists; vm_compute; reflexivity | reflexivity | reflexivity
    | vm_compute; reflexivity | reflexivity ].
Defined.

Lemma X14_witness :
  exists s,
    main_ex 5 (args_ex (Some 0%Z) false) = Some (Returned, s)
    /\ pulled_rows (trace s)
       = matching db_select_ex (args_ex (Some 0%Z) false)
    /\ rows_pulled (trace s)
       = length (matching db_select_ex (args_ex (Some 0%Z) false)).
Proof.
  apply (X14_limit_zero_pulls_everything json_loads_ex json_dumps_ex
           py_repr_ex utcnow_ex upsert_ex db_count_ex db_select_ex 5
           (args_ex (Some 0%Z) false) environ_ex "" []);
    [ reflexivity
    | split; [eexists; vm_compute; reflexivity|];
      split; [reflexivity|left; vm_compute; reflexivity]
    | vm_compute; lia ].
Defined.

Lemma X12_witness :
  prompts (trace (final (main_ex 5 (args_ex None false)))) = [].
Proof.
  apply (X12_no_prompt json_loads_ex json_dumps_ex py_repr_ex utcnow_ex
           upsert_ex db_count_ex db_select_ex 5 (args_ex None false)
           environ_ex "" [] Returned);
    [left; reflexivity | apply final_returned; vm_compute; reflexivity].
Defined.

End import_overture_us.

(** ** scripts/clear_places.py *)

Module clear_places.
Import Py.

Definition PAGE_SIZE : nat := 1000.      (* the [limit(1000)] of the loop *)

Section Clear.

(** The values of the [id] column. *)
Context {K : Type} `{EqDecision K}.

(** The order in which the store scans its rows for a [select]: any
    order, and one that may change from call to call with the table. *)
Variable scan : list K -> list K.

(** One element of [result.data] for [select('id')]: a dict with the key
    [id] alone. *)
Record id_row : Type := { r_id : K }.

Inductive event : Type :=
| EvPrint (text : string)
| EvInput (prompt : string)
| EvCount
| EvSelect (limit : nat) (data : list id_row)
| EvDelete (ids : list K).

(** The table is the list of the identifiers of its rows. *)
Record run : Type := {
  deleted : nat;
  places : list K;
  trace : list event
}.

Definition log (ev : event) (s : run) : run :=
  {| deleted := deleted s; places := places s; trace := trace s ++ [ev] |}.

Definition print (text : string) (s : run) : run := log (EvPrint text) s.

(** [table('places').select('id').limit(n).execute().data]. *)
Definition select_limit (n : nat) (table : list K) : list id_row :=
  map Build_id_row (take n (scan table)).

(** [table('places').delete().in_('id', ids).execute()]. *)
Definition delete_in (ids : list K) (table : list K) : list K :=
  filter (fun k => k ∉ ids) table.

Definition nl : string := String (Ascii.ascii_of_nat 10) EmptyString.

Definition lower_ascii (c : Ascii.ascii) : Ascii.ascii :=
  let n := Ascii.nat_of_ascii c in
  if ((65 <=? n) && (n <=? 90))%nat then Ascii.ascii_of_nat (n + 32) else c.

Fixpoint lower (s : string) : string :=
  match s with
  | EmptyString => EmptyString
  | String c s' => String (lower_ascii c) (lower s')
  end.

Definition get_supabase_client (environ : gmap string string)
  : option (string * string) :=
  match environ !! "SUPABASE_URL", environ !! "SUPABASE_SERVICE_KEY" with
  | Some url, Some key =>
      if String.eqb url "" || String.eqb key "" then None else Some (url, key)
  | _, _ => None
  end.

(** One turn of the loop after a non-empty fetch. *)
Definition delete_page (total : nat) (data : list id_row) (s : run) : run :=
  let ids := map r_id data in
  let s := log (EvDelete ids)
             {| deleted := deleted s; places := delete_in ids (places s);
                trace := trace s |} in
  let s := {| deleted := deleted s + length ids; places := places s;
              trace := trace s |} in
  print ("  Deleted " +:+ format_thousands (Z.of_nat (deleted s)) +:+ " / "
         +:+ format_thousands (Z.of_nat total)) s.

(** The [while True] loop; [None] when the fuel runs out first. *)
Fixpoint clear_loop (fuel : nat) (total : nat) (s : run) : option run :=
  match fuel with
  | O => None
  | S fuel' =>
      let data := select_limit PAGE_SIZE (places s) in
      let s1 := log (EvSelect PAGE_SIZE data) s in
      match data with
      | [] => Some s1
      | _ :: _ => clear_loop fuel' total (delete_page total data s1)
      end
  end.

Inductive exit : Type :=
| Returned
| SysExit (code : Z).

(** [main()]: [reply] is what the user types at the prompt, [table0] the
    table before the run. *)
Definition main (fuel : nat) (environ : gmap string string) (reply : string)
    (table0 : list K) : option (exit * run) :=
  let s := {| deleted := 0; places := table0; trace := [] |} in
  match get_supabase_client environ with
  | None =>
      Some (SysExit 1,
            print ("Error: SUPABASE_URL and SUPABASE_SERVICE_KEY "
                   +:+ "environment variables required") s)
  | Some _ =>
      let s := log EvCount s in
      let total := length (places s) in
      if (total =? 0)%nat then
        Some (Returned, print "Places table is already empty." s)
      else
        let s := print ("Current places count: "
                        +:+ format_thousands (Z.of_nat total)) s in
        let s := log (EvInput
                        "Are you sure you want to delete ALL places? [y/N] ")
                   s in
        if String.eqb (lower reply) "y" then
          let s := print "Clearing places..." s in
          match clear_loop fuel total s with
          | None => None
          | Some s =>
              Some (Returned,
                    print (nl +:+ "Done! Deleted "
                           +:+ format_thousands (Z.of_nat (deleted s))
                           +:+ " places.") s)
          end
        else Some (Returned, print "Aborted." s)
  end.

(** *** Reading a trace *)

Definition selects (tr : list event) : list (list K) :=
  flat_map (fun ev => match ev with
                      | EvSelect _ data => [map r_id data]
                      | _ => []
                      end) tr.

Definition deletes (tr : list event) : list (list K) :=
  flat_map (fun ev => match ev with
                      | EvDelete ids => [ids]
                      | _ => []
                      end) tr.

(** The sizes of the pages a table of [n] rows is deleted in. *)
Definition page_sizes (n : nat) : list nat :=
  replicate (n / PAGE_SIZE) PAGE_SIZE
  ++ (if (n mod PAGE_SIZE =? 0)%nat then [] else [n mod PAGE_SIZE]).

(** [ceil(n / PAGE_SIZE)]. *)
Definition cycles_for (n : nat) : nat := (n + (PAGE_SIZE - 1)) / PAGE_SIZE.

Lemma selects_app (a b : list event) :
  selects (a ++ b) = selects a ++ selects b.
Proof. apply flat_map_app. Qed.

Lemma deletes_app (a b : list event) :
  deletes (a ++ b) = deletes a ++ deletes b.
Proof. apply flat_map_app. Qed.

Lemma cycles_for_step (n : nat) :
  0 < n -> cycles_for n = S (cycles_for (n - PAGE_SIZE)).
Proof.
  unfold cycles_for, PAGE_SIZE. intros Hn.
  destruct (Nat.le_gt_cases 1000 n) as [Hge|Hlt].
  - replace (n + (1000 - 1)) with ((n - 1000 + (1000 - 1)) + 1 * 1000) by lia.
    rewrite Nat.div_add by lia. lia.
  - replace (n - 1000) with 0 by lia.
    replace ((0 + (1000 - 1)) / 1000) with 0 by reflexivity.
    symmetry. apply Nat.div_unique with (n - 1); lia.
Qed.

Lemma page_sizes_step (n : nat) :
  0 < n ->
  page_sizes n = Nat.min PAGE_SIZE n :: page_sizes (n - PAGE_SIZE).
Proof.
  unfold page_sizes, PAGE_SIZE. intros Hn.
  destruct (Nat.le_gt_cases 1000 n) as [Hge|Hlt].
  - assert (n / 1000 = S ((n - 1000) / 1000)) as ->.
    { replace n with ((n - 1000) + 1 * 1000) at 1 by lia.
      rewrite Nat.div_add by lia. lia. }
    assert (n mod 1000 = (n - 1000) mod 1000) as ->.
    { replace n with ((n - 1000) + 1 * 1000) at 1 by lia.
      by rewrite Nat.Div0.mod_add. }
    rewrite Nat.min_l by lia. done.
  - rewrite Nat.div_small, Nat.mod_small by lia.
    replace (n - 1000) with 0 by lia. rewrite Nat.min_r by lia.
    destruct (Nat.eqb_spec n 0); [lia|done].
Qed.

Lemma length_page_sizes (n : nat) :
  length (page_sizes n) = cycles_for n.
Proof.
  unfold page_sizes, cycles_for, PAGE_SIZE.
  rewrite length_app, length_replicate.
  pose proof (Nat.div_mod_eq n 1000) as Hdm.
  pose proof (Nat.mod_upper_bound n 1000 ltac:(lia)) as Hlt.
  destruct (Nat.eqb_spec (n mod 1000) 0) as [Hz|Hnz]; cbn [length].
  - apply Nat.div_unique with 999; lia.
  - apply Nat.div_unique with (n mod 1000 - 1); lia.
Qed.

(** *** The fetch/delete loop *)

Hypothesis scan_perm : forall table, scan table ≡ₚ table.

(** Deleting a fetched page removes exactly that page. *)
Lemma delete_in_page (n : nat) (table : list K) :
  NoDup table ->
  table ≡ₚ take n (scan table) ++ delete_in (take n (scan table)) table.
Proof.
  intros Hnd. set (ids := take n (scan table)).
  assert (NoDup (scan table)) as Hnds by (by rewrite scan_perm).
  assert (NoDup ids) as Hids.
  { rewrite <- (take_drop n (scan table)) in Hnds.
    by apply NoDup_app in Hnds as (? & _ & _). }
  assert (ids ⊆ table) as Hsub.
  { intros x Hx. rewrite <- (scan_perm table). by eapply subseteq_take. }
  rewrite <- (filter_app_complement (fun k => k ∈ ids) table) at 1.
  unfold delete_in. apply Permutation_app; [|done].
  apply NoDup_Permutation; [by apply NoDup_filter|done|].
  intros x. rewrite list_elem_of_filter. split; [by intros []|].
  intros Hx. split; [done|by apply Hsub].
Qed.

Lemma clear_loop_spec (fuel total : nat) (s : run) :
  NoDup (places s) ->
  cycles_for (length (places s)) < fuel ->
  exists s' pages,
    clear_loop fuel total s = Some s'
    /\ places s' = []
    /\ deleted s' = deleted s + length (places s)
    /\ deletes (trace s') = deletes (trace s) ++ pages
    /\ selects (trace s') = selects (trace s) ++ pages ++ [[]]
    /\ concat pages ≡ₚ places s
    /\ map length pages = page_sizes (length (places s)).
Proof.
  revert s. induction fuel as [|fuel IH]; intros s Hnd Hfuel; [lia|].
  cbn [clear_loop]. unfold select_limit.
  destruct (take PAGE_SIZE (scan (places s))) as [|k ids] eqn:Htake.
  - assert (scan (places s) = []) as Hscan.
    { destruct (scan (places s)); [done|]. unfold PAGE_SIZE in Htake.
      discriminate Htake. }
    pose proof (scan_perm (places s)) as Hp. rewrite Hscan in Hp.
    apply Permutation_nil_l in Hp. symmetry in Hp.
    exists (log (EvSelect PAGE_SIZE []) s), []. simpl.
    rewrite selects_app, deletes_app, Hp. simpl. rewrite !app_nil_r.
    repeat split; auto.
  - pose proof (delete_in_page PAGE_SIZE (places s) Hnd) as Hperm.
    rewrite Htake in Hperm.
    assert (length (k :: ids) = Nat.min PAGE_SIZE (length (places s)))
      as Hlen.
    { rewrite <- Htake, length_take. by rewrite scan_perm. }
    assert (length (places s)
            = length (k :: ids) + length (delete_in (k :: ids) (places s)))
      as Hsplit by (rewrite Hperm at 1; by rewrite length_app).
    assert (length (delete_in (k :: ids) (places s))
            = length (places s) - PAGE_SIZE) as Hrest.
    { cbn [length] in *. unfold PAGE_SIZE in *. lia. }
    assert (0 < length (places s)) as Hpos by (cbn [length] in Hsplit; lia).
    assert (map r_id (map Build_id_row (k :: ids)) = k :: ids) as Hids.
    { rewrite map_map. simpl. by rewrite map_id. }
    change (Build_id_row k :: map Build_id_row ids)
      with (map Build_id_row (k :: ids)).
    match goal with |- context [clear_loop fuel total ?s2] =>
      destruct (IH s2) as (s' & pages & Hloop & Hempty & Hdel & Hds & Hss
                           & Hcat & Hsizes) end.
    { unfold delete_page. cbn [places log print]. rewrite Hids.
      by apply NoDup_filter. }
    { unfold delete_page. cbn [places log print]. rewrite Hids, Hrest.
      rewrite (cycles_for_step _ Hpos) in Hfuel. lia. }
    exists s', ((k :: ids) :: pages). split; [exact Hloop|].
    unfold delete_page in Hdel, Hds, Hss, Hcat, Hsizes.
    cbn [places log print trace deleted] in Hdel, Hds, Hss, Hcat, Hsizes.
    rewrite Hids in *.
    rewrite !deletes_app in Hds. rewrite !selects_app in Hss.
    cbn [deletes selects flat_map app] in Hds, Hss.
    rewrite Hids, !app_nil_r in Hss. rewrite !app_nil_r in Hds.
    rewrite <- !app_assoc in Hds, Hss.
    split; [done|]. split; [rewrite Hdel; lia|].
    split; [done|]. split; [done|].
    split.
    + cbn [concat]. rewrite Hcat. by symmetry.
    + cbn [map]. rewrite Hsizes, Hrest, Hlen.
      by rewrite (page_sizes_step _ Hpos).
Qed.

(** C5: on a table of distinct identifiers that nothing else writes to, a
    confirmed run with fuel above [ceil(total / 1000)] returns, having made
    exactly [ceil(total / 1000)] deletes, of full pages and then the rest;
    the table is left empty, every fetch but the last is the page the next
    delete removes, the last fetch is empty, and no identifier is fetched
    twice. For 2,500 rows the deletes are of 1000, 1000 and 500 rows. *)
Theorem C5_delete_loop_empties_table (fuel : nat)
    (environ : gmap string string) (reply : string) (table0 : list K) :
  NoDup table0 ->
  is_Some (get_supabase_client environ) ->
  String.eqb (lower reply) "y" = true ->
  cycles_for (length table0) < fuel ->
  exists s,
    main fuel environ reply table0 = Some (Returned, s)
    /\ places s = []
    /\ deleted s = length table0
    /\ length (deletes (trace s)) = cycles_for (length table0)
    /\ map length (deletes (trace s)) = page_sizes (length table0)
    /\ selects (trace s)
       = match table0 with
         | [] => []
         | _ :: _ => deletes (trace s) ++ [[]]
         end
    /\ NoDup (concat (selects (trace s)))
    /\ concat (deletes (trace s)) ≡ₚ table0
    /\ (length table0 = 2500 ->
        map length (deletes (trace s)) = [1000; 1000; 500]).
Proof.
  intros Hnd [client Hclient] Hreply Hfuel. unfold main. rewrite Hclient.
  cbn [places log print].
  destruct (Nat.eqb_spec (length table0) 0) as [Hz|Hnz].
  - apply length_zero_iff_nil in Hz. subst table0.
    eexists. split; [reflexivity|]. cbn.
    repeat split; try done; constructor.
  - rewrite Hreply.
    match goal with |- context [clear_loop fuel _ ?s0] =>
      destruct (clear_loop_spec fuel (length table0) s0)
        as (s' & pages & -> & Hempty & Hdel & Hds & Hss & Hcat & Hsizes) end;
      [done|done|].
    cbn [places log print trace deleted] in Hdel, Hds, Hss, Hcat, Hsizes.
    rewrite !deletes_app in Hds. rewrite !selects_app in Hss.
    cbn in Hds, Hss.
    eexists. split; [reflexivity|].
    cbn [places log print trace deleted].
    rewrite deletes_app, selects_app, Hds, Hss. cbn. rewrite !app_nil_r.
    split; [done|]. split; [done|].
    split; [by rewrite <- (length_map length), Hsizes, length_page_sizes|].
    split; [done|].
    split; [by destruct table0|].
    split; [by rewrite concat_app, app_nil_r, Hcat|].
    split; [done|].
    intros H2500. by rewrite Hsizes, H2500.
Qed.

(** *** The runs that delete nothing, and what a run prints *)

(** X15: when [SUPABASE_URL] or [SUPABASE_SERVICE_KEY] is unset or empty
    the script prints the error and exits with status 1; the table is
    not counted, read or changed. *)
Theorem X15_clear_missing_credentials_exit (fuel : nat)
    (environ : gmap string string) (reply : string) (table0 : list K) :
  environ !! "SUPABASE_URL" = None \/ environ !! "SUPABASE_URL" = Some ""
  \/ environ !! "SUPABASE_SERVICE_KEY" = None
  \/ environ !! "SUPABASE_SERVICE_KEY" = Some "" ->
  exists s,
    main fuel environ reply table0 = Some (SysExit 1, s)
    /\ trace s
       = [ EvPrint ("Error: SUPABASE_URL and SUPABASE_SERVICE_KEY "
                    +:+ "environment variables required") ]
    /\ places s = table0.
Proof.
  intros Henv.
  assert (get_supabase_client environ = None) as Hnone.
  { unfold get_supabase_client.
    destruct (environ !! "SUPABASE_URL") as [url|];
      destruct (environ !! "SUPABASE_SERVICE_KEY") as [key|];
      try done;
      destruct Henv as [H|[H|[H|H]]]; try discriminate H;
      inversion H; subst; try done.
    by rewrite orb_true_r. }
  unfold main. rewrite Hnone. eexists. split; [reflexivity|]. by split.
Qed.

(** X16: on an empty table the script counts, says so and returns: the
    user is not asked, and no page is fetched or deleted. *)
Theorem X16_clear_empty_table (fuel : nat) (environ : gmap string string)
    (reply : string) :
  is_Some (get_supabase_client environ) ->
  exists s,
    main fuel environ reply [] = Some (Returned, s)
    /\ trace s = [ EvCount; EvPrint "Places table is already empty." ]
    /\ places s = [].
Proof.
  intros [client Hclient]. unfold main. rewrite Hclient.
  eexists. split; [reflexivity|]. by split.
Qed.

Lemma clear_lower_ascii_y (c : Ascii.ascii) :
  String (lower_ascii c) "" = "y" ->
  String c "" = "y" \/ String c "" = "Y".
Proof.
  destruct c as [[] [] [] [] [] [] [] []]; vm_compute; intros H;
    try discriminate H; auto.
Qed.

Lemma clear_lower_y (reply : string) :
  String.eqb (lower reply) "y" = true <-> reply = "y" \/ reply = "Y".
Proof.
  rewrite String.eqb_eq. split.
  - destruct reply as [|c [|c' r]]; simpl; intros H; try discriminate H.
    by apply clear_lower_ascii_y.
  - by intros [->| ->].
Qed.

(** X17: on a table that holds rows, any reply other than [y] or [Y]
    aborts: after the count and the question the script prints
    [Aborted.] and returns, and the table is as it was. *)
Theorem X17_clear_declined_keeps_table (fuel : nat)
    (environ : gmap string string) (reply : string) (table0 : list K) :
  is_Some (get_supabase_client environ) ->
  table0 <> [] ->
  reply <> "y" ->
  reply <> "Y" ->
  exists s,
    main fuel environ reply table0 = Some (Returned, s)
    /\ trace s
       = [ EvCount;
           EvPrint ("Current places count: "
                    +:+ format_thousands (Z.of_nat (length table0)));
           EvInput "Are you sure you want to delete ALL places? [y/N] ";
           EvPrint "Aborted." ]
    /\ places s = table0.
Proof.
  intros [client Hclient] Hne Hy HY. unfold main. rewrite Hclient.
  cbn [places log].
  destruct (Nat.eqb_spec (length table0) 0) as [Hz|_].
  { apply length_zero_iff_nil in Hz. done. }
  destruct (String.eqb (lower reply) "y") eqn:Hreply.
  { apply clear_lower_y in Hreply as [?|?]; done. }
  eexists. split; [reflexivity|]. by split.
Qed.

Definition printed (tr : list event) : list string :=
  flat_map (fun ev => match ev with
                      | EvPrint text => [text]
                      | _ => []
                      end) tr.

Lemma clear_printed_app (a b : list event) :
  printed (a ++ b) = printed a ++ printed b.
Proof. apply flat_map_app. Qed.

(** The line printed after a page: the rows deleted so far and the count
    taken at the start. *)
Definition progress_line (total : nat) (deleted : nat) : string :=
  "  Deleted " +:+ format_thousands (Z.of_nat deleted) +:+ " / "
  +:+ format_thousands (Z.of_nat total).

(** The running totals of page sizes, from [acc] on. *)
Fixpoint running (acc : nat) (sizes : list nat) : list nat :=
  match sizes with
  | [] => []
  | n :: sizes' => (acc + n) :: running (acc + n) sizes'
  end.

Lemma clear_loop_printed (fuel total : nat) (s s' : run) :
  clear_loop fuel total s = Some s' ->
  exists pages,
    deletes (trace s') = deletes (trace s) ++ pages
    /\ printed (trace s')
       = printed (trace s)
         ++ map (progress_line total) (running (deleted s) (map length pages)).
Proof.
  revert s. induction fuel as [|fuel IH]; intros s H; [done|].
  cbn [clear_loop] in H.
  destruct (select_limit PAGE_SIZE (places s)) as [|r data] eqn:Hsel.
  - inversion H; subst s'. exists []. cbn [log trace].
    rewrite deletes_app, clear_printed_app. simpl. by rewrite !app_nil_r.
  - apply IH in H as (pages & Hd & Hp).
    unfold delete_page in Hd, Hp.
    cbn [print log trace deleted] in Hd, Hp.
    rewrite !deletes_app in Hd. rewrite !clear_printed_app in Hp.
    cbn [deletes printed flat_map app] in Hd, Hp.
    rewrite !app_nil_r in Hd, Hp. rewrite <- !app_assoc in Hd, Hp.
    exists (map r_id (r :: data) :: pages). split; [exact Hd|].
    rewrite Hp. cbn [map running app]. reflexivity.
Qed.

(** X18: what a confirmed run on a table that holds rows prints: the
    count, [Clearing places...], after each page the running total of
    deleted rows over the count, and at the end the count as the number
    deleted. *)
Theorem X18_clear_progress_report (fuel : nat)
    (environ : gmap string string) (reply : string) (table0 : list K) :
  NoDup table0 ->
  table0 <> [] ->
  is_Some (get_supabase_client environ) ->
  reply = "y" \/ reply = "Y" ->
  cycles_for (length table0) < fuel ->
  exists s,
    main fuel environ reply table0 = Some (Returned, s)
    /\ printed (trace s)
       = [ "Current places count: "
           +:+ format_thousands (Z.of_nat (length table0));
           "Clearing places..." ]
         ++ map (progress_line (length table0))
              (running 0 (page_sizes (length table0)))
         ++ [ nl +:+ "Done! Deleted "
              +:+ format_thousands (Z.of_nat (length table0))
              +:+ " places." ].
Proof.
  intros Hnd Hne [client Hclient] Hreply Hfuel.
  apply clear_lower_y in Hreply. unfold main. rewrite Hclient.
  cbn [places log print].
  destruct (Nat.eqb_spec (length table0) 0) as [Hz|_].
  { apply length_zero_iff_nil in Hz. done. }
  rewrite Hreply.
  match goal with |- context [clear_loop fuel _ ?s0] =>
    destruct (clear_loop_spec fuel (length table0) s0)
      as (s' & pages & Hloop & _ & Hdel & Hds & _ & _ & Hsizes) end;
    [done|done|].
  rewrite Hloop. eexists. split; [reflexivity|].
  destruct (clear_loop_printed _ _ _ _ Hloop) as (pages' & Hds' & Hp).
  rewrite Hds in Hds'. apply app_inv_head in Hds'. subst pages'.
  cbn [places log print trace deleted] in Hdel, Hp, Hsizes.
  unfold print at 1. cbn [log trace].
  rewrite clear_printed_app, Hp, !clear_printed_app, Hsizes, Hdel.
  cbn [printed flat_map app Nat.add]. reflexivity.
Qed.

End Clear.

(** *** A concrete table *)

Definition environ_ex : gmap string string :=
  <["SUPABASE_URL" := "https://db.example"]>
    (<["SUPABASE_SERVICE_KEY" := "secret"]> ∅).

Definition table_ex : list nat := seq 0 2500.

Lemma C5_witness :
  exists s,
    main reverse 4 environ_ex "Y" table_ex = Some (Returned, s)
    /\ places s = []
    /\ deleted s = length table_ex
    /\ length (deletes (trace s)) = cycles_for (length table_ex)
    /\ map length (deletes (trace s)) = page_sizes (length table_ex)
    /\ selects (trace s)
       = match table_ex with
         | [] => []
         | _ :: _ => deletes (trace s) ++ [[]]
         end
    /\ NoDup (concat (selects (trace s)))
    /\ concat (deletes (trace s)) ≡ₚ table_ex
    /\ (length table_ex = 2500 ->
        map length (deletes (trace s)) = [1000; 1000; 500]).
Proof.
  apply (C5_delete_loop_empties_table reverse reverse_Permutation 4
           environ_ex "Y" table_ex);
    [ apply NoDup_seq
    | eexists; vm_compute; reflexivity
    | reflexivity
    | vm_compute; lia ].
Defined.

Lemma X15_witness :
  exists s,
    main reverse 4 ∅ "y" table_ex = Some (SysExit 1, s)
    /\ trace s
       = [ EvPrint ("Error: SUPABASE_URL and SUPABASE_SERVICE_KEY "
                    +:+ "environment variables required") ]
    /\ places s = table_ex.
Proof.
  apply X15_clear_missing_credentials_exit. left. reflexivity.
Defined.

Lemma X16_witness :
  exists s,
    main (K := nat) reverse 4 environ_ex "y" [] = Some (Returned, s)
    /\ trace s = [ EvCount; EvPrint "Places table is already empty." ]
    /\ places s = [].
Proof.
  apply X16_clear_empty_table. eexists. vm_compute. reflexivity.
Defined.

Lemma X17_witness :
  exists s,
    main reverse 4 environ_ex "yes" [7; 8; 9] = Some (Returned, s)
    /\ trace s
       = [ EvCount;
           EvPrint ("Current places count: "
                    +:+ format_thousands (Z.of_nat (length [7; 8; 9])));
           EvInput "Are you sure you want to delete ALL places? [y/N] ";
           EvPrint "Aborted." ]
    /\ places s = [7; 8; 9].
Proof.
  apply X17_clear_declined_keeps_table;
    [eexists; vm_compute; reflexivity | discriminate | discriminate
    | discriminate].
Defined.

Lemma X18_witness :
  exists s,
    main reverse 4 environ_ex "Y" table_ex = Some (Returned, s)
    /\ printed (trace s)
       = [ "Current places count: "
           +:+ format_thousands (Z.of_nat (length table_ex));
           "Clearing places..." ]
         ++ map (progress_line (length table_ex))
              (running 0 (page_sizes (length table_ex)))
         ++ [ nl +:+ "Done! Deleted "
              +:+ format_thousands (Z.of_nat (length table_ex))
              +:+ " places." ].
Proof.
  apply (X18_clear_progress_report reverse reverse_Permutation 4
           environ_ex "Y" table_ex);
    [ apply NoDup_seq | discriminate | eexists; vm_compute; reflexivity
    | right; reflexivity | vm_compute; lia ].
Defined.

(** The lines of a run on 2,500 rows. *)
Example progress_lines_2500 :
  map (progress_line 2500) (running 0 (page_sizes 2500))
  = [ "  Deleted 1,000 / 2,500"; "  Deleted 2,000 / 2,500";
      "  Deleted 2,500 / 2,500" ].
Proof. vm_compute. reflexivity. Qed.

End clear_places.
